(** * DiscordWikiJS: the wiki bot of [src/app.js]

    A shallow embedding of the bot's loader ([fetchWikiPages]), its allowlist
    test ([ALLOWED_GUILDS.includes]) and its [interactionCreate] handler,
    followed by the properties of the specification that concern them.

    Strings.  A JavaScript string is a sequence of UTF-16 code units.  The
    model uses Rocq strings, whose characters stand for the code units
    0..255 (ASCII and the Latin-1 supplement).  This range is closed under
    every string operation the program uses: [toLowerCase] maps it into
    itself, and [length], [includes], [trim], [split] and [===] work on code
    units.  Strings with code units above 255 are outside the model. *)

From Stdlib Require Import Bool Arith List Lia QArith Ascii String.
Import ListNotations.
Local Open Scope string_scope.
Local Open Scope nat_scope.
Local Open Scope list_scope.

(* ================================================================= *)
(** ** JavaScript strings *)

(** Code units with a different lower-case form: A..Z, and in the Latin-1
    supplement U+00C0..U+00DE except the multiplication sign U+00D7. *)
Definition isUpperUnit (c : ascii) : bool :=
  let n := nat_of_ascii c in
  ((65 <=? n) && (n <=? 90)) ||
  ((192 <=? n) && (n <=? 222) && negb (n =? 215)).

Definition lowerUnit (c : ascii) : ascii :=
  if isUpperUnit c then ascii_of_nat (nat_of_ascii c + 32) else c.

(** [s.toLowerCase()] *)
Fixpoint toLowerCase (s : string) : string :=
  match s with
  | EmptyString => EmptyString
  | String c s' => String (lowerUnit c) (toLowerCase s')
  end.

(** [s.startsWith(t)], the test [includes] makes at every position. *)
Fixpoint startsWith (s t : string) {struct t} : bool :=
  match t, s with
  | EmptyString, _ => true
  | String _ _, EmptyString => false
  | String b t', String a s' => Ascii.eqb a b && startsWith s' t'
  end.

(** [s.includes(t)]: [t] occurs in [s] as a contiguous run of code units. *)
Fixpoint includes (s t : string) : bool :=
  startsWith s t ||
  match s with
  | EmptyString => false
  | String _ s' => includes s' t
  end.

(** White space and line terminators of ECMAScript within 0..255:
    TAB, LF, VT, FF, CR, SP and NBSP. *)
Definition isWhiteSpace (c : ascii) : bool :=
  let n := nat_of_ascii c in
  ((9 <=? n) && (n <=? 13)) || (n =? 32) || (n =? 160).

Fixpoint trimStart (s : string) : string :=
  match s with
  | EmptyString => EmptyString
  | String c s' => if isWhiteSpace c then trimStart s' else s
  end.

Fixpoint trimEnd (s : string) : string :=
  match s with
  | EmptyString => EmptyString
  | String c s' =>
      match trimEnd s' with
      | EmptyString => if isWhiteSpace c then EmptyString else String c EmptyString
      | r => String c r
      end
  end.

(** [s.trim()] *)
Definition trim (s : string) : string := trimEnd (trimStart s).

(** [s.split(sep)] for a separator of one code unit. *)
Fixpoint split (sep : ascii) (s : string) : list string :=
  match s with
  | EmptyString => [EmptyString]
  | String c s' =>
      if Ascii.eqb c sep then EmptyString :: split sep s'
      else match split sep s' with
           | h :: r => String c h :: r
           | [] => [String c EmptyString]
           end
  end.

(** [arr.includes(x)] on an array of strings. *)
Definition array_includes (arr : list string) (x : string) : bool :=
  existsb (String.eqb x) arr.

(** A template literal renders an unset environment variable as the text
    [undefined]. *)
Definition interpolate (v : option string) : string :=
  match v with
  | Some s => s
  | None => "undefined"
  end.

(* ================================================================= *)
(** ** JavaScript values received from the content API *)

#[local] Set Warnings "-register-all".

(** What [JSON.parse] can produce, plus [undefined], which reading an absent
    property gives.  A number is the rational its finite double denotes. *)
Inductive jsval : Type :=
| Undefined
| Null
| Bool (b : bool)
| Num (q : Q)
| Str (s : string)
| Arr (elems : list jsval)
| Obj (fields : list (string * jsval)).

Inductive exn : Type :=
| TypeError      (* a property read of null or undefined, a call of a non-function *)
| Rejected.      (* an awaited promise of the HTTP client or the platform rejected *)

(** The completion of an expression or a statement list. *)
Inductive completion (A : Type) : Type :=
| Normal (a : A)
| Throw (e : exn).
Arguments Normal {A} a.
Arguments Throw {A} e.

Definition cbind {A B} (c : completion A) (k : A -> completion B) : completion B :=
  match c with
  | Normal a => k a
  | Throw e => Throw e
  end.

Fixpoint assoc (k : string) (fields : list (string * jsval)) : jsval :=
  match fields with
  | [] => Undefined
  | (k', v) :: rest => if String.eqb k k' then v else assoc k rest
  end.

(** [v.k] for the property names this program reads ([data], [pages], [list],
    [isPrivate], [title], [path], [tags]): none of them is defined by a
    built-in prototype, so only an object's own fields can answer. *)
Definition getProp (v : jsval) (k : string) : completion jsval :=
  match v with
  | Undefined | Null => Throw TypeError
  | Obj fields => Normal (assoc k fields)
  | _ => Normal Undefined
  end.

(** [ToBoolean] *)
Definition truthy (v : jsval) : bool :=
  match v with
  | Undefined | Null => false
  | Bool b => b
  | Num q => negb (Qeq_bool q 0)
  | Str s => negb (String.eqb s EmptyString)
  | Arr _ | Obj _ => true
  end.

(** The receiver of [.filter(...)] and [.map(...)]: only an array has these
    methods; on anything else the call throws. *)
Definition asArray (v : jsval) : completion (list jsval) :=
  match v with
  | Arr elems => Normal elems
  | _ => Throw TypeError
  end.

(** The receiver of [.toLowerCase()]: only a string has the method; on
    anything else the call throws. *)
Definition asString (v : jsval) : completion string :=
  match v with
  | Str s => Normal s
  | _ => Throw TypeError
  end.

(** [arr.filter(f)] and [arr.map(f)] with a callback that may throw: the
    first exception ends the traversal. *)
Fixpoint filterC {A} (f : A -> completion bool) (l : list A) : completion (list A) :=
  match l with
  | [] => Normal []
  | x :: l' =>
      cbind (f x) (fun keep =>
      cbind (filterC f l') (fun r =>
      Normal (if keep then x :: r else r)))
  end.

Fixpoint mapC {A B} (f : A -> completion B) (l : list A) : completion (list B) :=
  match l with
  | [] => Normal []
  | x :: l' =>
      cbind (f x) (fun y =>
      cbind (mapC f l') (fun r =>
      Normal (y :: r)))
  end.

(* ================================================================= *)
(** ** Data of the bot *)

(** An entry of [wikiPages], as the object literal of [fetchWikiPages]
    builds it.  [title] and the tags have gone through [toLowerCase], so
    they are strings; [path] is copied from the listing unchanged. *)
Module WikiPage.
Record t : Type := mk {
  title : string;
  path : jsval;
  lowercaseTitle : string;
  tags : list string
}.
End WikiPage.

(** An autocomplete choice [{ name, value }]. *)
Module Candidate.
Record t : Type := mk {
  name : string;
  value : jsval
}.
End Candidate.

Module Guild.
Record t : Type := mk {
  id : string;
  name : string
}.
End Guild.

(** The environment variables the modelled code reads. *)
Module Env.
Record t : Type := mk {
  ALLOWED_GUILDS : option string;
  WIKI_BASE_URL : option string
}.
End Env.

(** What the platform delivers to [interactionCreate].  [isAutocomplete()]
    and [isChatInputCommand()] are type guards of disjoint interaction
    classes, hence one constructor each; every other class of interaction is
    [Other].  [platformOk] says whether the one call of [reply] or [respond]
    made for this interaction resolves ([true]) or rejects ([false]). *)
Module Interaction.
Inductive kind : Type :=
| Autocomplete (focused : string)                       (* options.getFocused() *)
| ChatInputCommand (commandName : string) (query : string) (* options.getString('query') *)
| Other.

Record t : Type := mk {
  guild : option Guild.t;
  what : kind;
  platformOk : bool
}.

Definition isAutocomplete (i : t) : bool :=
  match what i with Autocomplete _ => true | _ => false end.

Definition isChatInputCommand (i : t) : bool :=
  match what i with ChatInputCommand _ _ => true | _ => false end.
End Interaction.

(** Calls that leave the process, in the order they are made. *)
Inductive event : Type :=
| ConsoleError (msg : string) (e : exn)
| ConsoleLog (msg : string)
| Reply (content : string) (ephemeral : bool)
| Respond (choices : list Candidate.t).

(** The outcome of the axios POST: the promise rejects (network failure,
    error status, unset URL), or resolves to a response whose [data] is the
    decoded body. *)
Inductive AxiosOutcome : Type :=
| AxiosRejected
| AxiosResolved (data : jsval).

(* ================================================================= *)
(** ** Effects: a trace of calls, and a completion *)

Definition M (A : Type) : Type := (list event * completion A)%type.

Definition ret {A} (a : A) : M A := ([], Normal a).

Definition bind {A B} (m : M A) (k : A -> M B) : M B :=
  match m with
  | (tr, Normal a) => let (tr', r) := k a in ((tr ++ tr')%list, r)
  | (tr, Throw e) => (tr, Throw e)
  end.

Definition lift {A} (c : completion A) : M A := ([], c).

Definition emit (ev : event) : M unit := ([ev], Normal tt).

(** [try { body } catch (error) { handler }] *)
Definition try_catch {A} (body : M A) (handler : exn -> M A) : M A :=
  match body with
  | (tr, Normal a) => (tr, Normal a)
  | (tr, Throw e) => let (tr', r) := handler e in ((tr ++ tr')%list, r)
  end.

Declare Scope js_scope.
Delimit Scope js_scope with js.
Notation "x <- m ;; k" := (bind m (fun x => k))
  (at level 61, m at next level, right associativity) : js_scope.
Notation "m ;; k" := (bind m (fun _ => k))
  (at level 61, right associativity) : js_scope.
Notation "x <-- c ;; k" := (cbind c (fun x => k))
  (at level 61, c at next level, right associativity) : js_scope.

Definition trace {A} (m : M A) : list event := fst m.
Definition outcome {A} (m : M A) : completion A := snd m.

(* ================================================================= *)
(** ** The allowlist *)

(** [process.env.ALLOWED_GUILDS ? ....split(',').map(id => id.trim()) : []];
    the empty string is falsy, as is an unset variable. *)
Definition ALLOWED_GUILDS (env : Env.t) : list string :=
  match Env.ALLOWED_GUILDS env with
  | None => []
  | Some s =>
      if String.eqb s EmptyString then []
      else map trim (split "," s)
  end.

(** The allowlist test [ALLOWED_GUILDS.includes(id)], made by the
    [guildCreate], [interactionCreate] and [ready] handlers. *)
Definition isAllowed (communityId : string) (allowlist : list string) : bool :=
  array_includes allowlist communityId.

(* ================================================================= *)
(** ** The loader *)

Section Loader.
Local Open Scope js_scope.

(** The callback of [.filter]: [page => !page.isPrivate]. *)
Definition notPrivate (page : jsval) : completion bool :=
  p <-- getProp page "isPrivate" ;;
  Normal (negb (truthy p)).

(** [tag => tag.toLowerCase()] *)
Definition lowerTag (tag : jsval) : completion string :=
  t <-- asString tag ;;
  Normal (toLowerCase t).

(** The callback of [.map]: the object literal, fields in source order.
    [page.title] is read twice; the second read is the receiver of
    [toLowerCase], which makes the title a string or throws. *)
Definition toWikiPage (page : jsval) : completion WikiPage.t :=
  title <-- getProp page "title" ;;
  path <-- getProp page "path" ;;
  t <-- asString title ;;
  tags <-- getProp page "tags" ;;
  tagArr <-- asArray tags ;;
  lowered <-- mapC lowerTag tagArr ;;
  Normal (WikiPage.mk t path (toLowerCase t) lowered).

(** [response.data.data.pages.list] *)
Definition pageList (data : jsval) : completion jsval :=
  d <-- getProp data "data" ;;
  pages <-- getProp d "pages" ;;
  getProp pages "list".

(** The [try] block. *)
Definition fetchBody (o : AxiosOutcome) : completion (list WikiPage.t) :=
  match o with
  | AxiosRejected => Throw Rejected
  | AxiosResolved data =>
      l <-- pageList data ;;
      arr <-- asArray l ;;
      kept <-- filterC notPrivate arr ;;
      mapC toWikiPage kept
  end.

Definition fetchWikiPages (o : AxiosOutcome) : M (list WikiPage.t) :=
  try_catch (lift (fetchBody o))
    (fun error =>
       emit (ConsoleError "Error fetching wiki pages:" error) ;;
       ret []).
End Loader.

(* ================================================================= *)
(** ** The [interactionCreate] handler *)

Definition start_typing : Candidate.t :=
  Candidate.mk "Start typing to search wiki pages (min 3 characters)" (Str "start_typing").

Definition no_results : Candidate.t :=
  Candidate.mk "No wiki pages found. Try a different search." (Str "no_results").

(** The predicate of [wikiPages.filter] in the autocomplete branch. *)
Definition matches (focusedValue : string) (page : WikiPage.t) : bool :=
  includes (WikiPage.lowercaseTitle page) (toLowerCase focusedValue) ||
  existsb (fun tag => includes (toLowerCase tag) (toLowerCase focusedValue))
          (WikiPage.tags page).

(** [page => ({ name: page.title, value: page.path })] *)
Definition toCandidate (page : WikiPage.t) : Candidate.t :=
  Candidate.mk (WikiPage.title page) (WikiPage.path page).

(** [.slice(0, n)] *)
Definition slice0 {A} (n : nat) (l : list A) : list A := firstn n l.

(** The choices the autocomplete branch passes to [interaction.respond],
    lines 121-154: the search matcher of the specification. *)
Definition search (wikiPages : list WikiPage.t) (focusedValue : string)
  : list Candidate.t :=
  if String.length focusedValue <? 3 then [start_typing]
  else
    let filtered :=
      map toCandidate (slice0 25 (filter (matches focusedValue) wikiPages)) in
    if List.length filtered =? 0 then [no_results] else filtered.

(** [page.path === selectedPage] with [selectedPage] a string. *)
Definition strictEqStr (v : jsval) (s : string) : bool :=
  match v with
  | Str t => String.eqb t s
  | _ => false
  end.

(** [wikiPages.find(page => page.path === selectedPage)] *)
Definition findPage (wikiPages : list WikiPage.t) (selectedPage : string)
  : option WikiPage.t :=
  find (fun page => strictEqStr (WikiPage.path page) selectedPage) wikiPages.

Definition denial : string :=
  "This bot is not authorized to operate in this server.".

Definition selectPrompt : string := "Please select a valid wiki page.".

Section Handler.
Local Open Scope js_scope.
Variable env : Env.t.
Variable wikiPages : list WikiPage.t.

Definition reply (i : Interaction.t) (content : string) (ephemeral : bool) : M unit :=
  (emit (Reply content ephemeral) ;;
   lift (if Interaction.platformOk i then Normal tt else Throw Rejected)).

Definition respond (i : Interaction.t) (choices : list Candidate.t) : M unit :=
  (emit (Respond choices) ;;
   lift (if Interaction.platformOk i then Normal tt else Throw Rejected)).

(** [!interaction.guild || !ALLOWED_GUILDS.includes(interaction.guild.id)] *)
Definition unauthorized (i : Interaction.t) : bool :=
  match Interaction.guild i with
  | None => true
  | Some g => negb (isAllowed (Guild.id g) (ALLOWED_GUILDS env))
  end.

(** [interaction.guild.name]: reading a property of [null] throws. *)
Definition guildName (i : Interaction.t) : completion string :=
  match Interaction.guild i with
  | None => Throw TypeError
  | Some g => Normal (Guild.name g)
  end.

(** Lines 106-118. *)
Definition unauthorizedBranch (i : Interaction.t) : M unit :=
  if Interaction.isChatInputCommand i || Interaction.isAutocomplete i then
    try_catch (reply i denial true)
      (fun error =>
         n <- lift (guildName i) ;;
         emit (ConsoleLog ("Could not send unauthorized message in " ++ n)%string))
  else ret tt.

(** Lines 157-178, for [commandName] and [selectedPage]. *)
Definition commandBranch (i : Interaction.t) (commandName selectedPage : string) : M unit :=
  if String.eqb commandName "wiki" then
    if String.eqb selectedPage "start_typing" || String.eqb selectedPage "no_results" then
      reply i selectPrompt true
    else
      let pageInfo := findPage wikiPages selectedPage in
      let pageTitle :=
        match pageInfo with
        | Some p => WikiPage.title p
        | None => "Unknown Page"
        end in
      let pageUrl := (interpolate (Env.WIKI_BASE_URL env) ++ "/" ++ selectedPage)%string in
      reply i ("**" ++ pageTitle ++ "**: " ++ pageUrl)%string false
  else ret tt.

(** The handler.  The two [if]s of lines 120 and 157 test disjoint
    interaction classes, so they are one [match]. *)
Definition interactionCreate (i : Interaction.t) : M unit :=
  if unauthorized i then unauthorizedBranch i
  else
    match Interaction.what i with
    | Interaction.Autocomplete focusedValue =>
        respond i (search wikiPages focusedValue)
    | Interaction.ChatInputCommand commandName selectedPage =>
        commandBranch i commandName selectedPage
    | Interaction.Other => ret tt
    end.
End Handler.

(* ================================================================= *)
(** ** Notions the properties are stated with *)

(** [t] occurs in [s]: some prefix and suffix surround it. *)
Definition substring (t s : string) : Prop :=
  exists a b : string, s = (a ++ t ++ b)%string.

(** A string that [toLowerCase] leaves as it is. *)
Definition lowerCased (s : string) : Prop := toLowerCase s = s.

(** The pages of the listing: the elements of [response.data.data.pages.list]. *)
Definition listing (o : AxiosOutcome) : list jsval :=
  match o with
  | AxiosResolved data =>
      match pageList data with
      | Normal (Arr elems) => elems
      | _ => []
      end
  | AxiosRejected => []
  end.

(** The truth value of [page.isPrivate] for a page of the listing. *)
Definition isPrivate (raw : jsval) : bool :=
  match getProp raw "isPrivate" with
  | Normal v => truthy v
  | Throw _ => false
  end.

(** The index entry [p] carries the fields of the fetched page [raw]. *)
Definition entryOf (raw : jsval) (p : WikiPage.t) : Prop :=
  getProp raw "title" = Normal (Str (WikiPage.title p)) /\
  getProp raw "path" = Normal (WikiPage.path p) /\
  exists rawTags : list string,
    getProp raw "tags" = Normal (Arr (map Str rawTags)) /\
    WikiPage.tags p = map toLowerCase rawTags.

(** A path identifies one page of the index: entries with equal paths are
    equal.  Pairwise different paths (the invariant of the data model) imply
    it. *)
Definition uniquePaths (wikiPages : list WikiPage.t) : Prop :=
  forall p q : WikiPage.t,
    In p wikiPages -> In q wikiPages ->
    WikiPage.path p = WikiPage.path q -> p = q.

(** The content of the reply to a command, for a title and a selected value. *)
Definition pageReply (baseUrl pageTitle selected : string) : string :=
  ("**" ++ pageTitle ++ "**: " ++ baseUrl ++ "/" ++ selected)%string.

(** Sample data: the scenario index of the specification, and a listing. *)
Definition setupPage : WikiPage.t :=
  WikiPage.mk "Setup Guide" (Str "setup") "setup guide" ["install"].

Definition sampleEnv : Env.t := Env.mk (Some "100, 200") (Some "https://wiki.example").

Definition sampleGuild : Guild.t := Guild.mk "100" "Home".

Definition strangerGuild : Guild.t := Guild.mk "999" "Elsewhere".

Definition rawPage (title path : string) (tags : list string) (private : bool) : jsval :=
  Obj [("id", Num 1); ("title", Str title); ("path", Str path);
       ("tags", Arr (map Str tags)); ("isPrivate", Bool private)].

Definition sampleResponse : jsval :=
  Obj [("data", Obj [("pages", Obj [("list",
    Arr [rawPage "Setup Guide" "setup" ["Install"] false;
         rawPage "Staff Notes" "staff" ["Internal"] true])])])].

(** A page whose path is the value of a sentinel. *)
Definition collidingPage : WikiPage.t :=
  WikiPage.mk "Collision" (Str "no_results") "collision" [].

Definition wikiCommand (g : option Guild.t) (selected : string) (ok : bool)
  : Interaction.t :=
  Interaction.mk g (Interaction.ChatInputCommand "wiki" selected) ok.

(** Twenty-six pages that all match the query [abc]. *)
Definition numberedPage (n : nat) : WikiPage.t :=
  WikiPage.mk "abc" (Str (String (ascii_of_nat (97 + n)) EmptyString)) "abc" [].

Definition manyPages : list WikiPage.t := map numberedPage (seq 0 26).

(* ================================================================= *)
(** ** Command deployment and the [guildCreate] and [ready] handlers *)

(** [PermissionFlagsBits], as far as the program names it. *)
Inductive Permission : Type :=
| ManageMessages.

(** The string option of the command, as the builder callback sets it. *)
Module CommandOption.
Record t : Type := mk {
  name : string;
  description : string;
  required : bool;
  autocomplete : bool
}.
End CommandOption.

(** The command the [SlashCommandBuilder] chain of lines 65-74 describes. *)
Module Command.
Record t : Type := mk {
  name : string;
  description : string;
  options : list CommandOption.t;
  defaultMemberPermissions : Permission
}.
End Command.

(** [wikiCommand.toJSON()] *)
Definition wikiCommandJSON : Command.t :=
  Command.mk "wiki" "Search Mix It Up Wiki"
    [CommandOption.mk "query" "Search term for wiki" true true]
    ManageMessages.

(** Calls the deployment code and the two guild handlers make, in order.
    [PutGuildCommands clientId guildId body] is
    [rest.put(Routes.applicationGuildCommands(clientId, guildId), { body })]. *)
Inductive call : Type :=
| Log (msg : string)
| LogError (msg : string) (e : exn)
| Leave (g : Guild.t)
| PutGuildCommands (clientId : option string) (guildId : string)
                   (body : list Command.t).

(** How the platform answers: whether the registration for a guild id, and
    the leaving of a guild with that id, resolve ([true]) or reject. *)
Module Platform.
Record t : Type := mk {
  putOk : string -> bool;
  leaveOk : string -> bool
}.
End Platform.

(** The same trace-and-completion reading as [M], over [call]. *)
Definition G (A : Type) : Type := (list call * completion A)%type.

Definition gret {A} (a : A) : G A := ([], Normal a).

Definition gbind {A B} (m : G A) (k : A -> G B) : G B :=
  match m with
  | (tr, Normal a) => let (tr', r) := k a in ((tr ++ tr')%list, r)
  | (tr, Throw e) => (tr, Throw e)
  end.

Definition gcall (c : call) (ok : bool) : G unit :=
  ([c], if ok then Normal tt else Throw Rejected).

Definition gtry {A} (body : G A) (handler : exn -> G A) : G A :=
  match body with
  | (tr, Normal a) => (tr, Normal a)
  | (tr, Throw e) => let (tr', r) := handler e in ((tr ++ tr')%list, r)
  end.

Definition calls {A} (m : G A) : list call := fst m.
Definition result {A} (m : G A) : completion A := snd m.

(** [for (const x of xs) { body }] *)
Fixpoint forOf {A} (body : A -> G unit) (xs : list A) : G unit :=
  match xs with
  | [] => gret tt
  | x :: xs' => gbind (body x) (fun _ => forOf body xs')
  end.

Section Lifecycle.
Variable env : Env.t.
Variable CLIENT_ID : option string.
Variable platform : Platform.t.

(** [`${guild.name} (${guild.id})`], the form every log line names a guild in. *)
Definition guildLabel (guildName guildId : string) : string :=
  (guildName ++ " (" ++ guildId ++ ")")%string.

(** Lines 76-86. *)
Definition deployCommands (guildId : string) : G unit :=
  gtry
    (gbind (gcall (PutGuildCommands CLIENT_ID guildId [wikiCommandJSON])
                  (Platform.putOk platform guildId)) (fun _ =>
     gcall (Log ("Commands deployed for " ++ guildId)%string) true))
    (fun error =>
       gcall (LogError ("Error deploying commands for " ++ guildId ++ ":")%string
                       error) true).

(** Lines 88-103. *)
Definition guildCreate (guild : Guild.t) : G unit :=
  let label := guildLabel (Guild.name guild) (Guild.id guild) in
  gbind (gcall (Log ("Attempting to join: " ++ label)%string) true) (fun _ =>
  if negb (isAllowed (Guild.id guild) (ALLOWED_GUILDS env)) then
    gbind (gcall (Log (label ++ " is not on the allowlist. Leaving...")%string) true)
      (fun _ =>
    gtry
      (gbind (gcall (Leave guild) (Platform.leaveOk platform (Guild.id guild)))
         (fun _ =>
       gcall (Log ("Left non-allowlisted guild: " ++ label)%string) true))
      (fun error =>
         gcall (LogError ("Failed to leave " ++ label ++ ":")%string error) true))
  else deployCommands (Guild.id guild)).

(** The body of the loop of lines 185-196, for one entry of the cache. *)
Definition readyGuild (entry : string * Guild.t) : G unit :=
  let (guildId, guild) := entry in
  if isAllowed guildId (ALLOWED_GUILDS env) then deployCommands guildId
  else
    let label := guildLabel (Guild.name guild) guildId in
    gbind (gcall (Log ("Guild " ++ label ++
                       " is not on the allowlist. Disabling...")%string) true)
      (fun _ =>
    gtry
      (gcall (Leave guild) (Platform.leaveOk platform (Guild.id guild)))
      (fun error =>
         gcall (LogError ("Failed to disable non-allowlisted guild " ++ label
                          ++ ":")%string error) true)).

(** Lines 181-197: [userTag] is [client.user.tag], [guilds] the entries of
    [client.guilds.cache] in iteration order. *)
Definition ready (userTag : string) (guilds : list (string * Guild.t)) : G unit :=
  gbind (gcall (Log ("Logged in as " ++ userTag ++ "!")%string) true) (fun _ =>
  forOf readyGuild guilds).
End Lifecycle.

(** The guild ids for which a trace registers commands, and the guilds it
    leaves, in order. *)
Fixpoint registrations (tr : list call) : list string :=
  match tr with
  | [] => []
  | PutGuildCommands _ guildId _ :: tr' => guildId :: registrations tr'
  | _ :: tr' => registrations tr'
  end.

Fixpoint departures (tr : list call) : list Guild.t :=
  match tr with
  | [] => []
  | Leave g :: tr' => g :: departures tr'
  | _ :: tr' => departures tr'
  end.

(** The platform calls ([reply], [respond]) of a handler trace. *)
Definition isPlatformCall (ev : event) : bool :=
  match ev with
  | Reply _ _ | Respond _ => true
  | ConsoleError _ _ | ConsoleLog _ => false
  end.

(** The code unit [c] occurs in [s]. *)
Definition hasUnit (c : ascii) (s : string) : Prop :=
  In c (list_ascii_of_string s).

(** The number of occurrences of [c] in [s]. *)
Fixpoint countUnit (c : ascii) (s : string) : nat :=
  match s with
  | EmptyString => 0
  | String a s' => (if Ascii.eqb a c then 1 else 0) + countUnit c s'
  end.

(** The values of [isPrivate] that [ToBoolean] takes for false. *)
Definition falsyFlag (v : jsval) : Prop :=
  v = Undefined \/ v = Null \/ v = Bool false \/
  (exists q : Q, v = Num q /\ Qeq q 0) \/ v = Str EmptyString.

Definition platformAllOk : Platform.t :=
  Platform.mk (fun _ => true) (fun _ => true).

Definition platformAllFail : Platform.t :=
  Platform.mk (fun _ => false) (fun _ => false).

Definition sampleCache : list (string * Guild.t) :=
  [("100", sampleGuild); ("999", strangerGuild); ("200", Guild.mk "200" "Annex")].

(* ================================================================= *)
(** ** Strings *)

Lemma lowerUnit_idem (c : ascii) : lowerUnit (lowerUnit c) = lowerUnit c.
Proof.
  destruct c as [[] [] [] [] [] [] [] []]; vm_compute; reflexivity.
Qed.

Lemma toLowerCase_idem (s : string) : toLowerCase (toLowerCase s) = toLowerCase s.
Proof.
  induction s as [|c s IH]; simpl; [reflexivity|].
  now rewrite lowerUnit_idem, IH.
Qed.

Lemma toLowerCase_length (s : string) :
  String.length (toLowerCase s) = String.length s.
Proof.
  induction s as [|c s IH]; simpl; congruence.
Qed.

Lemma append_assoc (a b c : string) :
  ((a ++ b) ++ c = a ++ (b ++ c))%string.
Proof.
  induction a as [|x a IH]; simpl; [reflexivity | now rewrite IH].
Qed.

Lemma append_nil_r (a : string) : (a ++ "" = a)%string.
Proof.
  induction a as [|x a IH]; simpl; [reflexivity | now rewrite IH].
Qed.

Lemma startsWith_spec (s t : string) :
  startsWith s t = true <-> exists b : string, s = (t ++ b)%string.
Proof.
  revert s; induction t as [|b t IH]; intros s; simpl.
  - split; [intros _; now exists s | reflexivity].
  - destruct s as [|a s].
    + split; [discriminate | intros [r Hr]; discriminate].
    + rewrite andb_true_iff, Ascii.eqb_eq, IH. split.
      * intros [-> [r ->]]. now exists r.
      * intros [r Hr]. injection Hr as -> ->. split; [reflexivity | now exists r].
Qed.

Lemma includes_spec (s t : string) : includes s t = true <-> substring t s.
Proof.
  unfold substring. induction s as [|c s IH].
  - change (includes "" t) with (startsWith "" t || false).
    rewrite orb_false_r, startsWith_spec. split.
    + intros [b Hb]. now exists EmptyString, b.
    + intros [[|a0 a] [b Hb]]; [now exists b | discriminate].
  - change (includes (String c s) t)
      with (startsWith (String c s) t || includes s t).
    rewrite orb_true_iff, startsWith_spec, IH. split.
    + intros [[b Hb] | [a [b Hab]]].
      * now exists EmptyString, b.
      * exists (String c a), b. simpl. now rewrite Hab.
    + intros [[|a0 a] [b Hab]].
      * left. now exists b.
      * right. simpl in Hab. injection Hab as _ ->. now exists a, b.
Qed.

Lemma trimStart_length (s : string) : String.length (trimStart s) <= String.length s.
Proof.
  induction s as [|c s IH]; simpl; [lia|].
  destruct (isWhiteSpace c); simpl; lia.
Qed.

Lemma trimEnd_length (s : string) : String.length (trimEnd s) <= String.length s.
Proof.
  induction s as [|c s IH]; simpl; [lia|].
  destruct (trimEnd s) as [|d r]; [destruct (isWhiteSpace c)|]; simpl in *; lia.
Qed.

Lemma trim_length (s : string) : String.length (trim s) <= String.length s.
Proof.
  unfold trim. pose proof (trimEnd_length (trimStart s)).
  pose proof (trimStart_length s). lia.
Qed.

Lemma array_includes_In (arr : list string) (x : string) :
  array_includes arr x = true <-> In x arr.
Proof.
  unfold array_includes. rewrite existsb_exists. split.
  - intros [y [Hy Heq]]. apply String.eqb_eq in Heq. now subst.
  - intros H. exists x. split; [assumption | apply String.eqb_refl].
Qed.

(* ================================================================= *)
(** ** The search matcher *)

Section Search.
Variable wikiPages : list WikiPage.t.

Lemma search_lt3 (q : string) :
  String.length q < 3 -> search wikiPages q = [start_typing].
Proof.
  intros H. unfold search.
  destruct (Nat.ltb_spec (String.length q) 3) as [_|Hge]; [reflexivity | lia].
Qed.

Lemma search_ge3 (q : string) :
  3 <= String.length q ->
  search wikiPages q =
    match filter (matches q) wikiPages with
    | [] => [no_results]
    | _ :: _ => map toCandidate (firstn 25 (filter (matches q) wikiPages))
    end.
Proof.
  intros H. unfold search, slice0.
  destruct (Nat.ltb_spec (String.length q) 3) as [Hlt|_]; [lia|].
  destruct (filter (matches q) wikiPages) as [|p m]; reflexivity.
Qed.

Lemma search_length (q : string) : List.length (search wikiPages q) <= 25.
Proof.
  unfold search, slice0.
  destruct (String.length q <? 3); [simpl; lia|].
  destruct (Nat.eqb_spec
              (List.length (map toCandidate
                 (firstn 25 (filter (matches q) wikiPages)))) 0) as [_|_].
  - simpl; lia.
  - rewrite length_map. apply firstn_le_length.
Qed.
End Search.

Lemma matches_spec (q : string) (page : WikiPage.t) :
  matches q page = true <->
  substring (toLowerCase q) (WikiPage.lowercaseTitle page) \/
  exists tag : string,
    In tag (WikiPage.tags page) /\ substring (toLowerCase q) (toLowerCase tag).
Proof.
  unfold matches. rewrite orb_true_iff, includes_spec, existsb_exists.
  split; (intros [H | [tag [Hin H]]]; [now left | right; exists tag]);
    (split; [assumption | now apply includes_spec]).
Qed.

Lemma matches_lower (q1 q2 : string) (page : WikiPage.t) :
  toLowerCase q1 = toLowerCase q2 -> matches q1 page = matches q2 page.
Proof.
  intros H. unfold matches. now rewrite H.
Qed.

(** C1 (as the code has it).  The handler compares the length of the focused
    value as received, without trimming it: a query of fewer than 3 code
    units gets exactly the [start_typing] sentinel, whatever the index
    holds. *)
Theorem search_short_query (wikiPages : list WikiPage.t) (q : string) :
  String.length q < 3 ->
  search wikiPages q = [start_typing] /\
  Candidate.value start_typing = Str "start_typing".
Proof.
  intros H. split; [now apply search_lt3 | reflexivity].
Qed.

Lemma search_short_query_witness :
  String.length "se" < 3 /\
  search [setupPage] "se" = [start_typing] /\
  Candidate.value start_typing = Str "start_typing".
Proof.
  split; [simpl; lia | apply (search_short_query [setupPage] "se"); simpl; lia].
Defined.

(** C1 (as stated in the specification) fails: the query [" gu"] has 3 code
    units and trims to 2, and the search returns the real page of the
    scenario index, not the sentinel. *)
Lemma search_trimmed_short_counterexample :
  String.length (trim " gu") < 3 /\
  search [setupPage] " gu" = [Candidate.mk "Setup Guide" (Str "setup")] /\
  search [setupPage] " gu" <> [start_typing].
Proof.
  split; [vm_compute; lia|].
  split; [reflexivity | vm_compute; discriminate].
Qed.

(** C4.  For a query whose trimmed length is at least 3: a page matches iff
    the lower-cased query occurs in its [lowercaseTitle] or in the lower-cased
    form of one of its tags (for tags already in lower case, as the loader
    stores them, in the tag itself); the candidates are those of the
    matching pages, in order and up to the cap of 25, each with the page's
    path as [value] and its title as [name]; with no matching page the result
    is exactly the [no_results] sentinel. *)
Theorem search_matching (wikiPages : list WikiPage.t) (q : string) :
  3 <= String.length (trim q) ->
  (forall page : WikiPage.t,
     matches q page = true <->
     substring (toLowerCase q) (WikiPage.lowercaseTitle page) \/
     exists tag : string,
       In tag (WikiPage.tags page) /\
       substring (toLowerCase q) (toLowerCase tag)) /\
  (forall page : WikiPage.t,
     Forall lowerCased (WikiPage.tags page) ->
     (matches q page = true <->
      substring (toLowerCase q) (WikiPage.lowercaseTitle page) \/
      exists tag : string,
        In tag (WikiPage.tags page) /\ substring (toLowerCase q) tag)) /\
  (forall page : WikiPage.t,
     In page (filter (matches q) wikiPages) <->
     In page wikiPages /\ matches q page = true) /\
  (filter (matches q) wikiPages <> [] ->
   search wikiPages q =
     map (fun page => Candidate.mk (WikiPage.title page) (WikiPage.path page))
         (firstn 25 (filter (matches q) wikiPages))) /\
  (List.length (filter (matches q) wikiPages) <= 25 ->
   forall page : WikiPage.t,
     In page wikiPages -> matches q page = true ->
     In (Candidate.mk (WikiPage.title page) (WikiPage.path page))
        (search wikiPages q)) /\
  (filter (matches q) wikiPages = [] ->
   search wikiPages q = [no_results]) /\
  Candidate.value no_results = Str "no_results".
Proof.
  intros Htrim.
  assert (Hlen : 3 <= String.length q)
    by (pose proof (trim_length q); lia).
  pose proof (search_ge3 wikiPages q Hlen) as Hs.
  split; [intros page; apply matches_spec|].
  split.
  { intros page Hlow. rewrite matches_spec.
    assert (Heq : forall tag, In tag (WikiPage.tags page) -> toLowerCase tag = tag)
      by (intros tag Hin; rewrite Forall_forall in Hlow; exact (Hlow tag Hin)).
    split; (intros [H | [tag [Hin H]]]; [now left | right; exists tag]);
      (split; [assumption|]).
    - now rewrite <- (Heq tag Hin).
    - now rewrite (Heq tag Hin). }
  split; [intros page; apply filter_In|].
  split.
  { intros Hne. rewrite Hs.
    destruct (filter (matches q) wikiPages); [congruence | reflexivity]. }
  split.
  { intros Hcap page Hin Hm. rewrite Hs.
    assert (Hp : In page (filter (matches q) wikiPages)) by now apply filter_In.
    destruct (filter (matches q) wikiPages) as [|p0 m] eqn:E; [destruct Hp|].
    rewrite firstn_all2 by exact Hcap.
    apply (in_map toCandidate) in Hp. exact Hp. }
  split; [|reflexivity].
  intros Hnil. rewrite Hs, Hnil. reflexivity.
Qed.

Lemma search_matching_witness :
  3 <= String.length (trim "set") /\
  search [setupPage] "set" = [Candidate.mk "Setup Guide" (Str "setup")].
Proof.
  split; [vm_compute; lia|].
  destruct (search_matching [setupPage] "set") as (_ & _ & _ & H & _).
  - vm_compute; lia.
  - rewrite H; [reflexivity | vm_compute; discriminate].
Defined.

(** C5.  The search never returns more than 25 candidates; when more than 25
    pages match a query that is matched at all (3 code units or more), the
    result is the candidates of the first 25 matching pages, in the order of
    the index. *)
Theorem search_cap (wikiPages : list WikiPage.t) (q : string) :
  List.length (search wikiPages q) <= 25 /\
  (3 <= String.length q ->
   25 < List.length (filter (matches q) wikiPages) ->
   search wikiPages q =
     map toCandidate (firstn 25 (filter (matches q) wikiPages)) /\
   List.length (search wikiPages q) = 25 /\
   exists rest : list WikiPage.t,
     filter (matches q) wikiPages =
       firstn 25 (filter (matches q) wikiPages) ++ rest).
Proof.
  split; [apply search_length|].
  intros Hlen Hmany.
  assert (Hs : search wikiPages q =
               map toCandidate (firstn 25 (filter (matches q) wikiPages))).
  { rewrite (search_ge3 wikiPages q Hlen).
    destruct (filter (matches q) wikiPages); [simpl in Hmany; lia | reflexivity]. }
  split; [exact Hs|]. split.
  - rewrite Hs, length_map, firstn_length_le; lia.
  - exists (skipn 25 (filter (matches q) wikiPages)).
    symmetry. apply firstn_skipn.
Qed.

Lemma search_cap_witness :
  25 < List.length (filter (matches "ABC") manyPages) /\
  search manyPages "ABC" = map toCandidate (firstn 25 manyPages) /\
  List.length (search manyPages "ABC") = 25.
Proof.
  split; [vm_compute; lia|].
  destruct (search_cap manyPages "ABC") as [_ H].
  destruct H as (Hs & Hl & _); [simpl; lia | vm_compute; lia |].
  split; [rewrite Hs; reflexivity | exact Hl].
Defined.

(** C10.  Two queries of equal length with equal lower-casings get the same
    search result on every index. *)
Theorem search_case_invariant (wikiPages : list WikiPage.t) (q1 q2 : string) :
  String.length q1 = String.length q2 ->
  toLowerCase q1 = toLowerCase q2 ->
  search wikiPages q1 = search wikiPages q2.
Proof.
  intros Hlen Hlow. unfold search. rewrite Hlen.
  destruct (String.length q2 <? 3); [reflexivity|].
  rewrite (filter_ext (matches q1) (matches q2)); [reflexivity|].
  intros page. now apply matches_lower.
Qed.

Lemma search_case_invariant_witness :
  String.length "SET" = String.length "set" /\
  toLowerCase "SET" = toLowerCase "set" /\
  search [setupPage] "SET" = search [setupPage] "set".
Proof.
  split; [reflexivity|]. split; [reflexivity|].
  apply (search_case_invariant [setupPage] "SET" "set"); reflexivity.
Defined.

(* ================================================================= *)
(** ** The loader *)

Lemma cbind_Normal {A B} (c : completion A) (k : A -> completion B) (b : B) :
  cbind c k = Normal b -> exists a : A, c = Normal a /\ k a = Normal b.
Proof.
  destruct c as [a|e]; simpl; [intros H; now exists a | discriminate].
Qed.

(** [step H as x Hx]: from [H : cbind c k = Normal b], the value [x] of [c]
    with [Hx : c = Normal x], and [H : k x = Normal b]. *)
Tactic Notation "step" hyp(H) "as" ident(x) ident(Hx) :=
  apply cbind_Normal in H; destruct H as [x [Hx H]].

Lemma filterC_notPrivate (arr kept : list jsval) :
  filterC notPrivate arr = Normal kept ->
  kept = filter (fun raw => negb (isPrivate raw)) arr.
Proof.
  revert kept; induction arr as [|x arr IH]; intros kept H; simpl in H.
  - now injection H as <-.
  - step H as keep Hkeep. step H as r Hr. injection H as <-.
    unfold notPrivate in Hkeep. step Hkeep as flag Hflag. injection Hkeep as <-.
    simpl. unfold isPrivate at 1. rewrite Hflag.
    rewrite <- (IH r Hr). reflexivity.
Qed.

Lemma mapC_Forall2 {A B} (f : A -> completion B) (l : list A) (r : list B) :
  mapC f l = Normal r -> Forall2 (fun x y => f x = Normal y) l r.
Proof.
  revert r; induction l as [|x l IH]; intros r H; simpl in H.
  - injection H as <-. constructor.
  - step H as y Hy. step H as r' Hr'. injection H as <-.
    constructor; [assumption | now apply IH].
Qed.

Lemma mapC_lowerTag (arr : list jsval) (lowered : list string) :
  mapC lowerTag arr = Normal lowered ->
  exists rawTags : list string,
    arr = map Str rawTags /\ lowered = map toLowerCase rawTags.
Proof.
  intros H. apply mapC_Forall2 in H.
  induction H as [|x y l r Hxy _ IH].
  - now exists [].
  - destruct IH as [rawTags [-> ->]].
    unfold lowerTag in Hxy. step Hxy as t Ht. injection Hxy as <-.
    destruct x; try discriminate. injection Ht as ->.
    now exists (t :: rawTags).
Qed.

Lemma toWikiPage_entry (raw : jsval) (p : WikiPage.t) :
  toWikiPage raw = Normal p ->
  entryOf raw p /\
  WikiPage.lowercaseTitle p = toLowerCase (WikiPage.title p) /\
  Forall lowerCased (WikiPage.tags p).
Proof.
  intros H. unfold toWikiPage in H.
  step H as title Htitle. step H as path Hpath. step H as t Ht.
  step H as tags Htags. step H as tagArr HtagArr. step H as lowered Hlowered.
  injection H as <-.
  destruct title; try discriminate. injection Ht as ->.
  destruct tags; try discriminate. injection HtagArr as ->.
  apply mapC_lowerTag in Hlowered. destruct Hlowered as [rawTags [-> ->]].
  unfold entryOf; simpl. split; [|split].
  - split; [assumption|]. split; [assumption|]. now exists rawTags.
  - reflexivity.
  - apply Forall_forall. intros u Hu. apply in_map_iff in Hu.
    destruct Hu as [w [<- _]]. apply toLowerCase_idem.
Qed.

Lemma fetchBody_Normal (o : AxiosOutcome) (index : list WikiPage.t) :
  fetchBody o = Normal index ->
  Forall2 (fun raw p => toWikiPage raw = Normal p)
          (filter (fun raw => negb (isPrivate raw)) (listing o)) index.
Proof.
  destruct o as [|data]; simpl; [discriminate|].
  intros H. step H as l Hl. step H as arr Harr. step H as kept Hkept.
  destruct l; try discriminate. injection Harr as ->.
  rewrite Hl. apply filterC_notPrivate in Hkept. subst kept.
  now apply mapC_Forall2.
Qed.

Lemma fetchWikiPages_cases (o : AxiosOutcome) :
  (exists index, fetchBody o = Normal index /\
                 fetchWikiPages o = ([], Normal index)) \/
  (exists e, fetchBody o = Throw e /\
             fetchWikiPages o =
               ([ConsoleError "Error fetching wiki pages:" e], Normal [])).
Proof.
  unfold fetchWikiPages.
  destruct (fetchBody o) as [index|e]; [left; now exists index | right; now exists e].
Qed.

(** C2.  Whatever the content API returned, every entry of the index the
    loader produces has [lowercaseTitle] equal to the lower-cased [title] and
    only lower-cased tags, and comes from a page of the listing whose
    [isPrivate] is not true; indeed the index is, entry by entry, the pages
    of the listing that are not private. *)
Theorem fetchWikiPages_index (o : AxiosOutcome) (index : list WikiPage.t) :
  outcome (fetchWikiPages o) = Normal index ->
  Forall (fun p =>
            WikiPage.lowercaseTitle p = toLowerCase (WikiPage.title p) /\
            Forall lowerCased (WikiPage.tags p)) index /\
  Forall (fun p =>
            exists raw : jsval,
              In raw (listing o) /\
              isPrivate raw = false /\
              getProp raw "isPrivate" <> Normal (Bool true) /\
              entryOf raw p) index /\
  (index = [] \/
   Forall2 entryOf (filter (fun raw => negb (isPrivate raw)) (listing o)) index).
Proof.
  intros H.
  destruct (fetchWikiPages_cases o) as [[idx [Hb Hf]] | [e [Hb Hf]]];
    rewrite Hf in H; injection H as <-.
  2: { split; [constructor|]. split; [constructor | now left]. }
  apply fetchBody_Normal in Hb.
  set (kept := filter (fun raw => negb (isPrivate raw)) (listing o)) in *.
  assert (Hkept : Forall (fun raw => In raw (listing o) /\ isPrivate raw = false) kept).
  { apply Forall_forall. intros raw Hin. apply filter_In in Hin.
    destruct Hin as [Hin Hp]. split; [assumption|].
    now destruct (isPrivate raw). }
  clearbody kept. clear Hf. split; [|split; [|right]].
  - induction Hb as [|raw p l r Hrp _ IH]; constructor.
    + apply toWikiPage_entry in Hrp. destruct Hrp as (_ & Hlow & Htags).
      now split.
    + apply IH. now inversion Hkept.
  - induction Hb as [|raw p l r Hrp _ IH]; constructor.
    + inversion Hkept as [|? ? [Hin Hpriv] _]; subst.
      exists raw. split; [assumption|]. split; [assumption|]. split.
      * intros Hget. unfold isPrivate in Hpriv. rewrite Hget in Hpriv. discriminate.
      * apply toWikiPage_entry in Hrp. now destruct Hrp as (He & _).
    + apply IH. now inversion Hkept.
  - clear Hkept. induction Hb as [|raw p l r Hrp _ IH]; constructor.
    + apply toWikiPage_entry in Hrp. now destruct Hrp as (He & _).
    + exact IH.
Qed.

Lemma fetchWikiPages_index_witness :
  outcome (fetchWikiPages (AxiosResolved sampleResponse)) = Normal [setupPage] /\
  Forall (fun p =>
            WikiPage.lowercaseTitle p = toLowerCase (WikiPage.title p) /\
            Forall lowerCased (WikiPage.tags p)) [setupPage].
Proof.
  split; [reflexivity|].
  apply (fetchWikiPages_index (AxiosResolved sampleResponse) [setupPage]).
  reflexivity.
Defined.

(** C3.  The loader never raises: for every outcome of the request it
    completes normally with a sequence; when anything in the [try] block
    throws (the request is rejected, or the response does not have the
    expected shape), the sequence is empty and the cause has been logged. *)
Theorem fetchWikiPages_never_throws (o : AxiosOutcome) :
  exists index : list WikiPage.t,
    outcome (fetchWikiPages o) = Normal index /\
    (forall e : exn,
       fetchBody o = Throw e ->
       index = [] /\
       trace (fetchWikiPages o) = [ConsoleError "Error fetching wiki pages:" e]) /\
    (o = AxiosRejected -> index = []) /\
    (forall pages : list WikiPage.t,
       fetchBody o = Normal pages ->
       index = pages /\ trace (fetchWikiPages o) = []).
Proof.
  destruct (fetchWikiPages_cases o) as [[idx [Hb Hf]] | [e [Hb Hf]]]; rewrite Hf.
  - exists idx. split; [reflexivity|]. split; [|split].
    + intros e He. congruence.
    + intros ->. discriminate.
    + intros pages Hp. split; [congruence | reflexivity].
  - exists []. split; [reflexivity|]. split; [|split].
    + intros e' He. split; [reflexivity|]. simpl. congruence.
    + reflexivity.
    + intros pages Hp. congruence.
Qed.

Lemma fetchWikiPages_never_throws_sample :
  fetchWikiPages (AxiosResolved (Obj [("data", Null)])) =
    ([ConsoleError "Error fetching wiki pages:" TypeError], Normal []) /\
  fetchWikiPages AxiosRejected =
    ([ConsoleError "Error fetching wiki pages:" Rejected], Normal []).
Proof.
  split; reflexivity.
Qed.

(* ================================================================= *)
(** ** The allowlist *)

(** C6.  The allowlist test is membership in the allowlist and nothing else;
    on the empty allowlist it is false for every community, an unset or
    empty [ALLOWED_GUILDS] variable gives the empty allowlist, and the handler
    then treats every interaction as unauthorized. *)
Theorem isAllowed_fail_closed :
  (forall (communityId : string) (allowlist : list string),
     isAllowed communityId allowlist = true <-> In communityId allowlist) /\
  (forall communityId : string, isAllowed communityId [] = false) /\
  (forall (base : option string) (communityId : string),
     isAllowed communityId (ALLOWED_GUILDS (Env.mk None base)) = false /\
     isAllowed communityId (ALLOWED_GUILDS (Env.mk (Some "") base)) = false) /\
  (forall (env : Env.t) (i : Interaction.t),
     ALLOWED_GUILDS env = [] -> unauthorized env i = true).
Proof.
  split; [intros communityId allowlist; apply array_includes_In|].
  split; [reflexivity|].
  split; [intros base communityId; split; reflexivity|].
  intros env i Hempty. unfold unauthorized. rewrite Hempty.
  destruct (Interaction.guild i); reflexivity.
Qed.

(* ================================================================= *)
(** ** The command branch *)

Section Command.
Variable env : Env.t.
Variable wikiPages : list WikiPage.t.

Lemma interactionCreate_command (i : Interaction.t) (commandName selected : string) :
  unauthorized env i = false ->
  Interaction.what i = Interaction.ChatInputCommand commandName selected ->
  interactionCreate env wikiPages i = commandBranch env wikiPages i commandName selected.
Proof.
  intros Hauth Hwhat. unfold interactionCreate. now rewrite Hauth, Hwhat.
Qed.

Lemma commandBranch_sentinel (i : Interaction.t) (selected : string) :
  selected = "start_typing" \/ selected = "no_results" ->
  commandBranch env wikiPages i "wiki" selected = reply i selectPrompt true.
Proof.
  intros [-> | ->]; reflexivity.
Qed.

Lemma commandBranch_page (i : Interaction.t) (selected : string) :
  selected <> "start_typing" -> selected <> "no_results" ->
  commandBranch env wikiPages i "wiki" selected =
    reply i (pageReply (interpolate (Env.WIKI_BASE_URL env))
               match findPage wikiPages selected with
               | Some p => WikiPage.title p
               | None => "Unknown Page"
               end selected) false.
Proof.
  intros H1 H2. unfold commandBranch.
  apply String.eqb_neq in H1, H2. rewrite H1, H2. reflexivity.
Qed.

Lemma trace_reply (i : Interaction.t) (content : string) (ephemeral : bool) :
  trace (reply i content ephemeral) = [Reply content ephemeral].
Proof.
  unfold reply, trace. now destruct (Interaction.platformOk i).
Qed.

Lemma findPage_Some (selected : string) (p : WikiPage.t) :
  findPage wikiPages selected = Some p ->
  In p wikiPages /\ WikiPage.path p = Str selected.
Proof.
  intros H. apply find_some in H. destruct H as [Hin Heq]. split; [assumption|].
  destruct (WikiPage.path p); try discriminate.
  simpl in Heq. apply String.eqb_eq in Heq. now subst.
Qed.

Lemma findPage_In (selected : string) (p : WikiPage.t) :
  In p wikiPages -> WikiPage.path p = Str selected ->
  exists p' : WikiPage.t, findPage wikiPages selected = Some p'.
Proof.
  intros Hin Hpath. destruct (findPage wikiPages selected) as [p'|] eqn:E.
  - now exists p'.
  - exfalso. pose proof (find_none _ _ E p Hin) as Hn. simpl in Hn.
    rewrite Hpath in Hn. simpl in Hn. rewrite String.eqb_refl in Hn. discriminate.
Qed.
End Command.

Lemma pageReply_contains (baseUrl pageTitle selected : string) :
  substring pageTitle (pageReply baseUrl pageTitle selected) /\
  substring (baseUrl ++ "/" ++ selected)%string (pageReply baseUrl pageTitle selected).
Proof.
  unfold substring, pageReply. split.
  - exists "**", ("**: " ++ baseUrl ++ "/" ++ selected)%string. reflexivity.
  - exists ("**" ++ pageTitle ++ "**: ")%string, EmptyString.
    now rewrite append_nil_r, !append_assoc.
Qed.

(** C7.  In an authorized community, a [wiki] command whose selected value
    is [start_typing] or [no_results] is answered with the prompt to select a
    valid page and with nothing else, and the index plays no part in it:
    the handler behaves the same on every index, also on one that holds a
    page with that path. *)
Theorem sentinel_selection_refused
    (env : Env.t) (wikiPages : list WikiPage.t) (i : Interaction.t)
    (selected : string) :
  unauthorized env i = false ->
  Interaction.what i = Interaction.ChatInputCommand "wiki" selected ->
  selected = "start_typing" \/ selected = "no_results" ->
  trace (interactionCreate env wikiPages i) =
    [Reply "Please select a valid wiki page." true] /\
  (forall other : list WikiPage.t,
     interactionCreate env other i = interactionCreate env wikiPages i).
Proof.
  intros Hauth Hwhat Hsel. split.
  - rewrite (interactionCreate_command env wikiPages i "wiki" selected Hauth Hwhat).
    rewrite (commandBranch_sentinel env wikiPages i selected Hsel).
    apply trace_reply.
  - intros other.
    rewrite (interactionCreate_command env other i "wiki" selected Hauth Hwhat).
    rewrite (interactionCreate_command env wikiPages i "wiki" selected Hauth Hwhat).
    now rewrite !commandBranch_sentinel.
Qed.

Lemma sentinel_selection_refused_witness :
  unauthorized sampleEnv (wikiCommand (Some sampleGuild) "no_results" true) = false /\
  In collidingPage [setupPage; collidingPage] /\
  WikiPage.path collidingPage = Str "no_results" /\
  trace (interactionCreate sampleEnv [setupPage; collidingPage]
           (wikiCommand (Some sampleGuild) "no_results" true)) =
    [Reply "Please select a valid wiki page." true].
Proof.
  split; [reflexivity|]. split; [right; left; reflexivity|]. split; [reflexivity|].
  apply (sentinel_selection_refused sampleEnv [setupPage; collidingPage]
           (wikiCommand (Some sampleGuild) "no_results" true) "no_results").
  - reflexivity.
  - reflexivity.
  - right; reflexivity.
Defined.

(** C8.  In an authorized community, a [wiki] command with a selected value
    [v] that is no sentinel gets one public reply, [**title**: baseUrl/v]:
    the title is that of the first page of the index whose path is [v] (when
    some page has path [v] there is one; when a path identifies one page it
    is the title of any page with path [v]), and [Unknown Page] when no page
    has path [v].  The reply contains the title and the URL. *)
Theorem command_reply
    (env : Env.t) (wikiPages : list WikiPage.t) (i : Interaction.t)
    (v baseUrl : string) :
  unauthorized env i = false ->
  Interaction.what i = Interaction.ChatInputCommand "wiki" v ->
  v <> "start_typing" -> v <> "no_results" ->
  Env.WIKI_BASE_URL env = Some baseUrl ->
  (forall p : WikiPage.t,
     findPage wikiPages v = Some p ->
     trace (interactionCreate env wikiPages i) =
       [Reply (pageReply baseUrl (WikiPage.title p) v) false]) /\
  ((exists p : WikiPage.t, In p wikiPages /\ WikiPage.path p = Str v) ->
   exists p : WikiPage.t,
     In p wikiPages /\ WikiPage.path p = Str v /\
     trace (interactionCreate env wikiPages i) =
       [Reply (pageReply baseUrl (WikiPage.title p) v) false]) /\
  (uniquePaths wikiPages ->
   forall p : WikiPage.t,
     In p wikiPages -> WikiPage.path p = Str v ->
     trace (interactionCreate env wikiPages i) =
       [Reply (pageReply baseUrl (WikiPage.title p) v) false]) /\
  ((forall p : WikiPage.t, In p wikiPages -> WikiPage.path p <> Str v) ->
   trace (interactionCreate env wikiPages i) =
     [Reply (pageReply baseUrl "Unknown Page" v) false]) /\
  (forall pageTitle : string,
     pageReply baseUrl pageTitle v =
       ("**" ++ pageTitle ++ "**: " ++ baseUrl ++ "/" ++ v)%string /\
     substring pageTitle (pageReply baseUrl pageTitle v) /\
     substring (baseUrl ++ "/" ++ v)%string (pageReply baseUrl pageTitle v)).
Proof.
  intros Hauth Hwhat Hv1 Hv2 Hbase.
  assert (Htr : trace (interactionCreate env wikiPages i) =
                [Reply (pageReply baseUrl
                          match findPage wikiPages v with
                          | Some p => WikiPage.title p
                          | None => "Unknown Page"
                          end v) false]).
  { rewrite (interactionCreate_command env wikiPages i "wiki" v Hauth Hwhat).
    rewrite (commandBranch_page env wikiPages i v Hv1 Hv2), Hbase.
    apply trace_reply. }
  split; [|split; [|split; [|split]]].
  - intros p Hp. now rewrite Htr, Hp.
  - intros [p [Hin Hpath]].
    destruct (findPage_In wikiPages v p Hin Hpath) as [p' Hp'].
    exists p'. destruct (findPage_Some wikiPages v p' Hp') as [Hin' Hpath'].
    split; [assumption|]. split; [assumption|]. now rewrite Htr, Hp'.
  - intros Huniq p Hin Hpath.
    destruct (findPage_In wikiPages v p Hin Hpath) as [p' Hp'].
    destruct (findPage_Some wikiPages v p' Hp') as [Hin' Hpath'].
    assert (p' = p) by (apply Huniq; congruence). subst p'.
    now rewrite Htr, Hp'.
  - intros Hnone. rewrite Htr.
    destruct (findPage wikiPages v) as [p|] eqn:E; [|reflexivity].
    destruct (findPage_Some wikiPages v p E) as [Hin Hpath].
    now destruct (Hnone p Hin).
  - intros pageTitle. split; [reflexivity | apply pageReply_contains].
Qed.

Lemma command_reply_witness :
  trace (interactionCreate sampleEnv [setupPage]
           (wikiCommand (Some sampleGuild) "setup" true)) =
    [Reply "**Setup Guide**: https://wiki.example/setup" false].
Proof.
  destruct (command_reply sampleEnv [setupPage]
              (wikiCommand (Some sampleGuild) "setup" true)
              "setup" "https://wiki.example") as (H & _).
  - reflexivity.
  - reflexivity.
  - discriminate.
  - discriminate.
  - reflexivity.
  - exact (H setupPage eq_refl).
Defined.

Lemma command_reply_unknown_sample :
  trace (interactionCreate sampleEnv [setupPage]
           (wikiCommand (Some sampleGuild) "ghost" true)) =
    [Reply "**Unknown Page**: https://wiki.example/ghost" false].
Proof.
  reflexivity.
Qed.

(* ================================================================= *)
(** ** The unauthorized branch *)


(** C9 fails on the code.  A command arrives without a guild and the denial
    reply is rejected: the [catch] block reads [interaction.guild.name] of
    the absent guild, and the [TypeError] leaves the handler; nothing is
    logged. *)
Theorem unauthorized_absent_guild_throws :
  unauthorized sampleEnv (wikiCommand None "setup" false) = true /\
  interactionCreate sampleEnv [setupPage] (wikiCommand None "setup" false) =
    ([Reply "This bot is not authorized to operate in this server." true],
     Throw TypeError).
Proof.
  split; reflexivity.
Qed.

(** With a guild that is not on the allowlist, the same rejected reply is
    logged and dropped. *)
Lemma unauthorized_stranger_guild_sample :
  interactionCreate sampleEnv [setupPage]
    (wikiCommand (Some strangerGuild) "setup" false) =
    ([Reply "This bot is not authorized to operate in this server." true;
      ConsoleLog "Could not send unauthorized message in Elsewhere"],
     Normal tt).
Proof.
  reflexivity.
Qed.

(** The search of the scenario of the specification. *)
Lemma search_scenario_sample :
  search [setupPage] "set" = [Candidate.mk "Setup Guide" (Str "setup")] /\
  search [setupPage] "se" = [start_typing] /\
  search [setupPage] "wiki" = [no_results] /\
  In (Candidate.mk "abc" (Str "y")) (search manyPages "abc") /\
  ~ In (Candidate.mk "abc" (Str "z")) (search manyPages "abc").
Proof.
  repeat split; try reflexivity.
  - vm_compute. intuition.
  - vm_compute. intuition discriminate.
Qed.

(* ================================================================= *)
(** ** More on strings: case, trimming, splitting *)




Lemma trimStart_head (s : string) (c : ascii) (r : string) :
  trimStart s = String c r -> isWhiteSpace c = false.
Proof.
  induction s as [|a s IH]; simpl; [discriminate|].
  destruct (isWhiteSpace a) eqn:E; [exact IH|].
  intros H. injection H as <- _. exact E.
Qed.

Lemma trimEnd_head (s : string) (c : ascii) (r : string) :
  trimEnd s = String c r -> exists r' : string, s = String c r'.
Proof.
  destruct s as [|a s]; simpl; [discriminate|].
  destruct (trimEnd s); [destruct (isWhiteSpace a)|]; try discriminate;
    intros H; injection H as <- _; now exists s.
Qed.

Lemma trimEnd_last (s pre : string) (c : ascii) :
  trimEnd s = (pre ++ String c EmptyString)%string -> isWhiteSpace c = false.
Proof.
  revert pre; induction s as [|a s IH]; intros pre; simpl.
  - destruct pre; discriminate.
  - destruct (trimEnd s) as [|d r].
    + destruct (isWhiteSpace a) eqn:E; [destruct pre; discriminate|].
      destruct pre as [|p [|p' pre]]; simpl; intros H; try discriminate.
      now injection H as <-.
    + destruct pre as [|p pre]; simpl; intros H; [discriminate|].
      injection H as _ H. exact (IH pre H).
Qed.

Lemma trimEnd_idem (s : string) : trimEnd (trimEnd s) = trimEnd s.
Proof.
  induction s as [|a s IH]; simpl; [reflexivity|].
  destruct (trimEnd s) as [|d r] eqn:E.
  - destruct (isWhiteSpace a) eqn:Ea; simpl; [reflexivity | now rewrite Ea].
  - change (trimEnd (String a (String d r)))
      with (match trimEnd (String d r) with
            | EmptyString =>
                if isWhiteSpace a then EmptyString else String a EmptyString
            | String _ _ as r0 => String a r0
            end).
    now rewrite IH.
Qed.

Lemma trimStart_fixed (s : string) :
  (forall c r, s = String c r -> isWhiteSpace c = false) -> trimStart s = s.
Proof.
  destruct s as [|a s]; simpl; [reflexivity|].
  intros H. now rewrite (H a s eq_refl).
Qed.

Lemma trim_head (s : string) (c : ascii) (r : string) :
  trim s = String c r -> isWhiteSpace c = false.
Proof.
  unfold trim. intros H. apply trimEnd_head in H. destruct H as [r' H].
  exact (trimStart_head s c r' H).
Qed.

Lemma trim_idem (s : string) : trim (trim s) = trim s.
Proof.
  unfold trim at 1.
  rewrite (trimStart_fixed (trim s)) by (intros c r; apply trim_head).
  unfold trim. apply trimEnd_idem.
Qed.

Lemma trimStart_units (c : ascii) (s : string) :
  hasUnit c (trimStart s) -> hasUnit c s.
Proof.
  unfold hasUnit. induction s as [|a s IH]; simpl; [easy|].
  destruct (isWhiteSpace a); simpl; [intros H; right; now apply IH | easy].
Qed.

Lemma trimEnd_units (c : ascii) (s : string) :
  hasUnit c (trimEnd s) -> hasUnit c s.
Proof.
  unfold hasUnit. induction s as [|a s IH]; simpl; [easy|].
  destruct (trimEnd s) as [|d r].
  - destruct (isWhiteSpace a); simpl; [easy | intros [H | []]; now left].
  - simpl in *. intros [H | H]; [now left | right; now apply IH].
Qed.

Lemma trim_units (c : ascii) (s : string) : hasUnit c (trim s) -> hasUnit c s.
Proof.
  unfold trim. intros H. now apply trimStart_units, trimEnd_units.
Qed.

Lemma split_pieces (sep : ascii) (s piece : string) :
  In piece (split sep s) -> ~ hasUnit sep piece.
Proof.
  unfold hasUnit. revert piece; induction s as [|a s IH]; intros piece; simpl.
  - intros [<- | []]. simpl. easy.
  - destruct (Ascii.eqb_spec a sep) as [->|Hne].
    + intros [<- | H]; [simpl; easy | now apply IH].
    + destruct (split sep s) as [|h r] eqn:E.
      * intros [<- | []]. simpl. intros [H | []]. congruence.
      * intros [<- | H].
        -- simpl. intros [H | H]; [congruence|].
           exact (IH h (or_introl eq_refl) H).
        -- apply IH. now right.
Qed.

Lemma split_length (sep : ascii) (s : string) :
  List.length (split sep s) = S (countUnit sep s).
Proof.
  induction s as [|a s IH]; simpl; [reflexivity|].
  destruct (Ascii.eqb a sep); simpl; [now rewrite IH|].
  destruct (split sep s) as [|h r]; simpl in *; lia.
Qed.

Lemma trim_last (s pre : string) (c : ascii) :
  trim s = (pre ++ String c EmptyString)%string -> isWhiteSpace c = false.
Proof.
  unfold trim. apply trimEnd_last.
Qed.

(* ================================================================= *)
(** ** The allowlist as parsed from the environment *)

(** X1.  Every entry of the parsed allowlist is clean: trimming leaves it
    as it is, it neither starts nor ends with white space, and it holds no
    comma.  A guild id with a comma or with outer white space can therefore
    never be allowlisted. *)
Theorem allowlist_entries_clean (env : Env.t) (communityId : string) :
  In communityId (ALLOWED_GUILDS env) ->
  trim communityId = communityId /\
  (forall c r, communityId = String c r -> isWhiteSpace c = false) /\
  (forall pre c,
     communityId = (pre ++ String c EmptyString)%string ->
     isWhiteSpace c = false) /\
  ~ hasUnit "," communityId.
Proof.
  unfold ALLOWED_GUILDS. destruct (Env.ALLOWED_GUILDS env) as [s|]; [|intros []].
  destruct (String.eqb s EmptyString); [intros []|].
  intros H. apply in_map_iff in H. destruct H as [piece [<- Hin]].
  split; [apply trim_idem|]. split; [intros c r; apply trim_head|].
  split; [intros pre c; apply trim_last|].
  intros Hc. apply trim_units in Hc. exact (split_pieces _ _ _ Hin Hc).
Qed.

Lemma allowlist_entries_clean_witness :
  In "200" (ALLOWED_GUILDS sampleEnv) /\ trim "200" = "200".
Proof.
  split; [right; left; reflexivity|].
  apply (allowlist_entries_clean sampleEnv "200"). right; left; reflexivity.
Defined.

(** X2.  A set, non-empty [ALLOWED_GUILDS] variable always gives an
    allowlist of one entry more than it has commas: only an unset or empty
    variable gives the empty allowlist. *)
Theorem allowlist_size (env : Env.t) (s : string) :
  Env.ALLOWED_GUILDS env = Some s ->
  s <> EmptyString ->
  List.length (ALLOWED_GUILDS env) = S (countUnit "," s) /\
  ALLOWED_GUILDS env <> [].
Proof.
  intros Hs Hne. unfold ALLOWED_GUILDS. rewrite Hs.
  apply String.eqb_neq in Hne. rewrite Hne.
  assert (Hlen : List.length (map trim (split "," s)) = S (countUnit "," s))
    by (rewrite length_map; apply split_length).
  split; [exact Hlen|].
  intros Hnil. rewrite Hnil in Hlen. discriminate.
Qed.

Lemma allowlist_size_witness :
  List.length (ALLOWED_GUILDS (Env.mk (Some " ,") None)) = 2 /\
  ALLOWED_GUILDS (Env.mk (Some " ,") None) = [EmptyString; EmptyString].
Proof.
  split; [|reflexivity].
  apply (allowlist_size (Env.mk (Some " ,") None) " ,"); [reflexivity | discriminate].
Defined.

(* ================================================================= *)
(** ** The handler as a whole *)

Lemma search_nonempty (wikiPages : list WikiPage.t) (q : string) :
  1 <= List.length (search wikiPages q).
Proof.
  unfold search, slice0. destruct (String.length q <? 3); [simpl; lia|].
  destruct (Nat.eqb_spec
              (List.length (map toCandidate
                 (firstn 25 (filter (matches q) wikiPages)))) 0) as [_|Hne].
  - simpl; lia.
  - lia.
Qed.

(** X3.  In an authorized community an autocomplete request gets exactly
    one call of [respond], with no fewer than 1 and no more than 25 choices;
    the handler throws exactly when that call is rejected. *)
Theorem autocomplete_responds_once
    (env : Env.t) (wikiPages : list WikiPage.t) (i : Interaction.t)
    (focusedValue : string) :
  unauthorized env i = false ->
  Interaction.what i = Interaction.Autocomplete focusedValue ->
  trace (interactionCreate env wikiPages i) =
    [Respond (search wikiPages focusedValue)] /\
  1 <= List.length (search wikiPages focusedValue) <= 25 /\
  outcome (interactionCreate env wikiPages i) =
    (if Interaction.platformOk i then Normal tt else Throw Rejected).
Proof.
  intros Hauth Hwhat. unfold interactionCreate. rewrite Hauth, Hwhat.
  unfold respond. split; [|split].
  - now destruct (Interaction.platformOk i).
  - split; [apply search_nonempty | apply search_length].
  - now destruct (Interaction.platformOk i).
Qed.

Lemma autocomplete_responds_once_witness :
  trace (interactionCreate sampleEnv [setupPage]
           (Interaction.mk (Some sampleGuild) (Interaction.Autocomplete "INST") true)) =
    [Respond [Candidate.mk "Setup Guide" (Str "setup")]].
Proof.
  destruct (autocomplete_responds_once sampleEnv [setupPage]
              (Interaction.mk (Some sampleGuild) (Interaction.Autocomplete "INST") true)
              "INST") as [H _]; [reflexivity | reflexivity | exact H].
Defined.

(** X4.  Whatever the interaction, the handler calls the platform ([reply]
    or [respond]) at most once. *)
Theorem interactionCreate_single_call
    (env : Env.t) (wikiPages : list WikiPage.t) (i : Interaction.t) :
  List.length (filter isPlatformCall (trace (interactionCreate env wikiPages i))) <= 1.
Proof.
  unfold interactionCreate, unauthorizedBranch, commandBranch, respond, reply,
    guildName, Interaction.isChatInputCommand, Interaction.isAutocomplete.
  destruct (unauthorized env i);
    destruct (Interaction.what i) as [fv | cn v |];
    destruct (Interaction.platformOk i);
    destruct (Interaction.guild i);
    try destruct (String.eqb cn "wiki");
    try destruct (String.eqb v "start_typing" || String.eqb v "no_results");
    simpl; lia.
Qed.


(* ================================================================= *)
(** ** From a choice to the reply *)

Lemma In_firstn {A} (n : nat) (l : list A) (x : A) :
  In x (firstn n l) -> In x l.
Proof.
  revert l; induction n as [|n IH]; intros [|y l]; simpl; try easy.
  intros [H | H]; [now left | right; now apply IH].
Qed.

Lemma search_choice_origin (wikiPages : list WikiPage.t) (q : string)
    (c : Candidate.t) :
  In c (search wikiPages q) ->
  c = start_typing \/ c = no_results \/
  exists p : WikiPage.t,
    In p wikiPages /\ matches q p = true /\ c = toCandidate p.
Proof.
  unfold search, slice0. destruct (String.length q <? 3).
  - intros [<- | []]. now left.
  - destruct (List.length _ =? 0).
    + intros [<- | []]. right; now left.
    + intros H. right; right. apply in_map_iff in H.
      destruct H as [p [<- Hp]]. apply In_firstn, filter_In in Hp.
      exists p. now destruct Hp.
Qed.

Lemma findPage_first (pre post : list WikiPage.t) (p : WikiPage.t) (v : string) :
  WikiPage.path p = Str v ->
  (forall p' : WikiPage.t, In p' pre -> WikiPage.path p' <> Str v) ->
  findPage (pre ++ p :: post) v = Some p.
Proof.
  intros Hp Hpre. unfold findPage. induction pre as [|x pre IH]; simpl.
  - rewrite Hp. simpl. now rewrite String.eqb_refl.
  - destruct (strictEqStr (WikiPage.path x) v) eqn:E.
    + exfalso. apply (Hpre x (or_introl eq_refl)).
      destruct (WikiPage.path x); try discriminate.
      simpl in E. apply String.eqb_eq in E. now subst.
    + apply IH. intros p' Hin. apply Hpre. now right.
Qed.

Lemma command_trace (env : Env.t) (wikiPages : list WikiPage.t)
    (i : Interaction.t) (v baseUrl : string) (p : WikiPage.t) :
  unauthorized env i = false ->
  Interaction.what i = Interaction.ChatInputCommand "wiki" v ->
  v <> "start_typing" -> v <> "no_results" ->
  Env.WIKI_BASE_URL env = Some baseUrl ->
  findPage wikiPages v = Some p ->
  trace (interactionCreate env wikiPages i) =
    [Reply (pageReply baseUrl (WikiPage.title p) v) false].
Proof.
  intros Hauth Hwhat Hv1 Hv2 Hbase Hfind.
  rewrite (interactionCreate_command env wikiPages i "wiki" v Hauth Hwhat).
  rewrite (commandBranch_page env wikiPages i v Hv1 Hv2), Hbase, Hfind.
  apply trace_reply.
Qed.

(** X6.  Selecting a choice the search offered opens the page it named.
    On an index in which a path identifies one page, a [wiki] command whose
    value is the value of a choice returned by the search (a string other
    than the two sentinels) is answered with the public reply that carries
    the name of that very choice. *)
Theorem choice_then_command
    (env : Env.t) (wikiPages : list WikiPage.t) (q : string)
    (i : Interaction.t) (c : Candidate.t) (v baseUrl : string) :
  uniquePaths wikiPages ->
  In c (search wikiPages q) ->
  Candidate.value c = Str v ->
  v <> "start_typing" -> v <> "no_results" ->
  unauthorized env i = false ->
  Interaction.what i = Interaction.ChatInputCommand "wiki" v ->
  Env.WIKI_BASE_URL env = Some baseUrl ->
  trace (interactionCreate env wikiPages i) =
    [Reply (pageReply baseUrl (Candidate.name c) v) false].
Proof.
  intros Huniq Hc Hval Hv1 Hv2 Hauth Hwhat Hbase.
  destruct (search_choice_origin wikiPages q c Hc) as [-> | [-> | [p (Hin & _ & ->)]]].
  - simpl in Hval. congruence.
  - simpl in Hval. congruence.
  - simpl in Hval.
    destruct (findPage_In wikiPages v p Hin Hval) as [p' Hp'].
    destruct (findPage_Some wikiPages v p' Hp') as [Hin' Hpath'].
    assert (p' = p) by (apply Huniq; congruence). subst p'.
    now apply command_trace.
Qed.

Lemma choice_then_command_witness :
  In (Candidate.mk "Setup Guide" (Str "setup")) (search [setupPage] "guide") /\
  trace (interactionCreate sampleEnv [setupPage]
           (wikiCommand (Some sampleGuild) "setup" true)) =
    [Reply "**Setup Guide**: https://wiki.example/setup" false].
Proof.
  split; [left; reflexivity|].
  apply (choice_then_command sampleEnv [setupPage] "guide"
           (wikiCommand (Some sampleGuild) "setup" true)
           (Candidate.mk "Setup Guide" (Str "setup")) "setup" "https://wiki.example").
  - intros p p' [<- | []] [<- | []] _. reflexivity.
  - left; reflexivity.
  - reflexivity.
  - discriminate.
  - discriminate.
  - reflexivity.
  - reflexivity.
  - reflexivity.
Defined.

(** X7.  When several pages share the selected path, the reply names the
    first of them in index order: pages before it with another path, and
    all pages after it, do not matter. *)
Theorem command_reply_first_match
    (env : Env.t) (pre post : list WikiPage.t) (p : WikiPage.t)
    (i : Interaction.t) (v baseUrl : string) :
  unauthorized env i = false ->
  Interaction.what i = Interaction.ChatInputCommand "wiki" v ->
  v <> "start_typing" -> v <> "no_results" ->
  Env.WIKI_BASE_URL env = Some baseUrl ->
  WikiPage.path p = Str v ->
  (forall p' : WikiPage.t, In p' pre -> WikiPage.path p' <> Str v) ->
  trace (interactionCreate env (pre ++ p :: post) i) =
    [Reply (pageReply baseUrl (WikiPage.title p) v) false].
Proof.
  intros Hauth Hwhat Hv1 Hv2 Hbase Hp Hpre.
  apply command_trace; try assumption.
  now apply findPage_first.
Qed.

Lemma command_reply_first_match_witness :
  trace (interactionCreate sampleEnv
           ([collidingPage] ++ setupPage ::
              [WikiPage.mk "Old Setup" (Str "setup") "old setup" []])
           (wikiCommand (Some sampleGuild) "setup" true)) =
    [Reply "**Setup Guide**: https://wiki.example/setup" false].
Proof.
  apply (command_reply_first_match sampleEnv [collidingPage]
           [WikiPage.mk "Old Setup" (Str "setup") "old setup" []] setupPage
           (wikiCommand (Some sampleGuild) "setup" true) "setup"
           "https://wiki.example"); try reflexivity; try discriminate.
  intros p' [<- | []]. discriminate.
Defined.





(* ================================================================= *)
(** ** More on the loader *)

Lemma truthy_false_iff (v : jsval) : truthy v = false <-> falsyFlag v.
Proof.
  unfold falsyFlag. destruct v as [| |b|q|s|l|fs]; simpl.
  - split; [intros _; now left | reflexivity].
  - split; [intros _; right; now left | reflexivity].
  - split.
    + intros ->. right; right; now left.
    + intros [H|[H|[H|[[q [H _]]|H]]]]; try discriminate. now injection H.
  - rewrite negb_false_iff, Qeq_bool_iff. split.
    + intros H. right; right; right; left. now exists q.
    + intros [H|[H|[H|[[q' [H Hq]]|H]]]]; try discriminate.
      injection H as ->. exact Hq.
  - rewrite negb_false_iff, String.eqb_eq. split.
    + intros ->. now repeat right.
    + intros [H|[H|[H|[[q [H _]]|H]]]]; try discriminate. now injection H.
  - split; [discriminate|].
    intros [H|[H|[H|[[q [H _]]|H]]]]; discriminate.
  - split; [discriminate|].
    intros [H|[H|[H|[[q [H _]]|H]]]]; discriminate.
Qed.

Lemma Forall2_In_l {A B} (R : A -> B -> Prop) (l : list A) (r : list B) (x : A) :
  Forall2 R l r -> In x l -> exists y : B, In y r /\ R x y.
Proof.
  induction 1 as [|a b l r Hab _ IH]; simpl; [easy|].
  intros [<- | Hin].
  - exists b. split; [now left | assumption].
  - destruct (IH Hin) as [y [Hy Hxy]]. exists y. split; [now right | assumption].
Qed.

Lemma Forall2_In_r {A B} (R : A -> B -> Prop) (l : list A) (r : list B) (y : B) :
  Forall2 R l r -> In y r -> exists x : A, In x l /\ R x y.
Proof.
  induction 1 as [|a b l r Hab _ IH]; simpl; [easy|].
  intros [<- | Hin].
  - exists a. split; [now left | assumption].
  - destruct (IH Hin) as [x [Hx Hxy]]. exists x. split; [now right | assumption].
Qed.

Lemma cbind_Throw {A B} (c : completion A) (k : A -> completion B) (e : exn) :
  cbind c k = Throw e ->
  c = Throw e \/ exists a : A, c = Normal a /\ k a = Throw e.
Proof.
  destruct c as [a|e']; simpl; intros H; [right; now exists a | injection H as ->; now left].
Qed.

Lemma getProp_throw (v : jsval) (k : string) (e : exn) :
  getProp v k = Throw e -> e = TypeError.
Proof.
  destruct v; simpl; intros H; try discriminate; now injection H.
Qed.

Lemma asArray_throw (v : jsval) (e : exn) : asArray v = Throw e -> e = TypeError.
Proof.
  destruct v; simpl; intros H; try discriminate; now injection H.
Qed.

Lemma asString_throw (v : jsval) (e : exn) : asString v = Throw e -> e = TypeError.
Proof.
  destruct v; simpl; intros H; try discriminate; now injection H.
Qed.

Lemma filterC_throw {A} (f : A -> completion bool) (l : list A) (e : exn) :
  (forall x e', f x = Throw e' -> e' = TypeError) ->
  filterC f l = Throw e -> e = TypeError.
Proof.
  intros Hf. induction l as [|x l IH]; simpl; [discriminate|].
  intros H. apply cbind_Throw in H. destruct H as [H | [keep [_ H]]].
  - exact (Hf x e H).
  - apply cbind_Throw in H. destruct H as [H | [r [_ H]]]; [now apply IH | discriminate].
Qed.

Lemma mapC_throw {A B} (f : A -> completion B) (l : list A) (e : exn) :
  (forall x e', f x = Throw e' -> e' = TypeError) ->
  mapC f l = Throw e -> e = TypeError.
Proof.
  intros Hf. induction l as [|x l IH]; simpl; [discriminate|].
  intros H. apply cbind_Throw in H. destruct H as [H | [y [_ H]]].
  - exact (Hf x e H).
  - apply cbind_Throw in H. destruct H as [H | [r [_ H]]]; [now apply IH | discriminate].
Qed.

(** [chase H]: follow the throwing step of a chain of [cbind]s, closing the
    cases where a property read or a method call throws. *)
Ltac chase H :=
  first [ discriminate H
        | now apply getProp_throw in H
        | now apply asArray_throw in H
        | now apply asString_throw in H
        | apply cbind_Throw in H; destruct H as [H | [? [_ H]]];
          [chase H | chase H]
        | idtac ].

Lemma lowerTag_throw (tag : jsval) (e : exn) :
  lowerTag tag = Throw e -> e = TypeError.
Proof.
  unfold lowerTag. intros H. chase H.
Qed.

Lemma toWikiPage_throw (raw : jsval) (e : exn) :
  toWikiPage raw = Throw e -> e = TypeError.
Proof.
  unfold toWikiPage. intros H. chase H.
  exact (mapC_throw lowerTag _ e lowerTag_throw H).
Qed.

Lemma notPrivate_throw (raw : jsval) (e : exn) :
  notPrivate raw = Throw e -> e = TypeError.
Proof.
  unfold notPrivate. intros H. chase H.
Qed.

Lemma fetchBody_resolved_throw (data : jsval) (e : exn) :
  fetchBody (AxiosResolved data) = Throw e -> e = TypeError.
Proof.
  unfold fetchBody, pageList. intros H. chase H.
  - exact (filterC_throw notPrivate _ e notPrivate_throw H).
  - exact (mapC_throw toWikiPage _ e toWikiPage_throw H).
Qed.

Lemma filterC_Normal_each {A} (f : A -> completion bool) (l r : list A) (x : A) :
  filterC f l = Normal r -> In x l -> exists b : bool, f x = Normal b.
Proof.
  revert r; induction l as [|a l IH]; intros r H; simpl in *; [easy|].
  step H as keep Hkeep. step H as r' Hr'.
  intros [<- | Hin]; [now exists keep | exact (IH r' Hr' Hin)].
Qed.

Lemma fetchBody_Normal_readable (o : AxiosOutcome) (index : list WikiPage.t)
    (raw : jsval) :
  fetchBody o = Normal index -> In raw (listing o) ->
  exists flag : jsval, getProp raw "isPrivate" = Normal flag.
Proof.
  destruct o as [|data]; simpl; [discriminate|].
  intros H. step H as l Hl. step H as arr Harr. step H as kept Hkept.
  destruct l; try discriminate. injection Harr as ->.
  rewrite Hl. intros Hin.
  destruct (filterC_Normal_each notPrivate _ _ raw Hkept Hin) as [b Hb].
  unfold notPrivate in Hb. step Hb as flag Hflag. now exists flag.
Qed.

Lemma fetchWikiPages_quiet (o : AxiosOutcome) (index : list WikiPage.t) :
  fetchWikiPages o = ([], Normal index) -> fetchBody o = Normal index.
Proof.
  intros H. destruct (fetchWikiPages_cases o) as [[idx [Hb Hf]] | [e [_ Hf]]];
    rewrite Hf in H; [now injection H as <- | discriminate].
Qed.

(** X10.  No public page is lost.  When the load succeeds without a logged
    error, every page of the listing whose [isPrivate] is missing, [null],
    [false], zero or the empty string has its entry in the index: a page
    without the flag counts as public. *)
Theorem fetchWikiPages_public_pages_kept
    (o : AxiosOutcome) (index : list WikiPage.t) (raw flag : jsval) :
  fetchWikiPages o = ([], Normal index) ->
  In raw (listing o) ->
  getProp raw "isPrivate" = Normal flag ->
  falsyFlag flag ->
  exists p : WikiPage.t, In p index /\ entryOf raw p.
Proof.
  intros Hload Hin Hflag Hfalsy.
  apply fetchWikiPages_quiet, fetchBody_Normal in Hload.
  assert (Hkept : In raw (filter (fun r => negb (isPrivate r)) (listing o))).
  { apply filter_In. split; [assumption|].
    unfold isPrivate. rewrite Hflag.
    apply truthy_false_iff in Hfalsy. now rewrite Hfalsy. }
  destruct (Forall2_In_l _ _ _ raw Hload Hkept) as [p [Hp Hrp]].
  exists p. split; [assumption|]. now apply toWikiPage_entry in Hrp.
Qed.

Lemma fetchWikiPages_public_pages_kept_witness :
  exists p : WikiPage.t,
    In p [WikiPage.mk "Draft" Undefined "draft" []] /\
    entryOf (Obj [("title", Str "Draft"); ("tags", Arr [])]) p.
Proof.
  apply (fetchWikiPages_public_pages_kept
           (AxiosResolved
              (Obj [("data", Obj [("pages", Obj [("list",
                 Arr [Obj [("title", Str "Draft"); ("tags", Arr [])]])])])]))
           [WikiPage.mk "Draft" Undefined "draft" []]
           (Obj [("title", Str "Draft"); ("tags", Arr [])]) Undefined).
  - reflexivity.
  - left; reflexivity.
  - reflexivity.
  - left; reflexivity.
Defined.

(** X11.  One unreadable page empties the index.  If the listing holds a
    [null] entry, or a page that is not private and whose title is not a
    string or whose tags are not an array, the loader logs a [TypeError] and
    returns the empty sequence, whatever the other pages are. *)
Theorem fetchWikiPages_all_or_nothing
    (data : jsval) (raw : jsval) :
  In raw (listing (AxiosResolved data)) ->
  raw = Null \/ raw = Undefined \/
  (isPrivate raw = false /\
   ((forall s : string, getProp raw "title" <> Normal (Str s)) \/
    (forall l : list jsval, getProp raw "tags" <> Normal (Arr l)))) ->
  fetchWikiPages (AxiosResolved data) =
    ([ConsoleError "Error fetching wiki pages:" TypeError], Normal []).
Proof.
  intros Hin Hbad.
  destruct (fetchWikiPages_cases (AxiosResolved data))
    as [[idx [Hb Hf]] | [e [Hb Hf]]].
  2: { rewrite Hf. now rewrite (fetchBody_resolved_throw data e Hb). }
  exfalso.
  destruct (fetchBody_Normal_readable _ _ raw Hb Hin) as [flag Hflag].
  destruct Hbad as [-> | [-> | [Hpub Hbad]]]; try discriminate.
  apply fetchBody_Normal in Hb.
  assert (Hkept : In raw (filter (fun r => negb (isPrivate r))
                            (listing (AxiosResolved data))))
    by (apply filter_In; split; [assumption | now rewrite Hpub]).
  destruct (Forall2_In_l _ _ _ raw Hb Hkept) as [p [_ Hrp]].
  apply toWikiPage_entry in Hrp.
  destruct Hrp as ((Htitle & _ & rawTags & Htags & _) & _).
  destruct Hbad as [Hbad | Hbad]; [exact (Hbad _ Htitle) | exact (Hbad _ Htags)].
Qed.

Lemma fetchWikiPages_all_or_nothing_witness :
  fetchWikiPages
    (AxiosResolved
       (Obj [("data", Obj [("pages", Obj [("list",
          Arr [rawPage "Setup Guide" "setup" ["Install"] false;
               Obj [("title", Str "No tags"); ("path", Str "bare")]])])])])) =
    ([ConsoleError "Error fetching wiki pages:" TypeError], Normal []).
Proof.
  apply (fetchWikiPages_all_or_nothing _
           (Obj [("title", Str "No tags"); ("path", Str "bare")])).
  - right; left; reflexivity.
  - right; right. split; [reflexivity|]. right. intros l. discriminate.
Defined.

(** X12.  What the log tells.  The logged error is the rejection exactly
    when the request was rejected; after a response, the loader either logs
    nothing or logs a [TypeError] (the response did not have the expected
    shape). *)
Theorem fetchWikiPages_error_kind (o : AxiosOutcome) :
  (trace (fetchWikiPages o) =
     [ConsoleError "Error fetching wiki pages:" Rejected] <->
   o = AxiosRejected) /\
  (forall data : jsval,
     o = AxiosResolved data ->
     trace (fetchWikiPages o) = [] \/
     fetchWikiPages o =
       ([ConsoleError "Error fetching wiki pages:" TypeError], Normal [])).
Proof.
  split.
  - split.
    + destruct o as [|data]; [reflexivity|]. intros H.
      destruct (fetchWikiPages_cases (AxiosResolved data))
        as [[idx [Hb Hf]] | [e [Hb Hf]]]; rewrite Hf in H; [discriminate|].
      rewrite (fetchBody_resolved_throw data e Hb) in H. discriminate.
    + intros ->. reflexivity.
  - intros data ->.
    destruct (fetchWikiPages_cases (AxiosResolved data))
      as [[idx [Hb Hf]] | [e [Hb Hf]]]; rewrite Hf.
    + now left.
    + right. now rewrite (fetchBody_resolved_throw data e Hb).
Qed.

(** X13.  Loader and matcher together are case-insensitive on the fetched
    data.  Every entry of a loaded index comes from a page of the listing
    with a string title and string tags, and it matches a query iff the
    lower-cased query occurs in the lower-cased fetched title or in the
    lower-cased form of one of the fetched tags. *)
Theorem loaded_page_matches
    (o : AxiosOutcome) (index : list WikiPage.t) (p : WikiPage.t) :
  outcome (fetchWikiPages o) = Normal index ->
  In p index ->
  exists (raw : jsval) (rawTitle : string) (rawTags : list string),
    In raw (listing o) /\
    getProp raw "title" = Normal (Str rawTitle) /\
    getProp raw "tags" = Normal (Arr (map Str rawTags)) /\
    WikiPage.title p = rawTitle /\
    forall q : string,
      matches q p = true <->
      substring (toLowerCase q) (toLowerCase rawTitle) \/
      exists tag : string,
        In tag rawTags /\ substring (toLowerCase q) (toLowerCase tag).
Proof.
  intros Hload Hin.
  destruct (fetchWikiPages_cases o) as [[idx [Hb Hf]] | [e [_ Hf]]];
    rewrite Hf in Hload; injection Hload as <-; [|destruct Hin].
  apply fetchBody_Normal in Hb.
  destruct (Forall2_In_r _ _ _ p Hb Hin) as [raw [Hraw Hrp]].
  apply filter_In in Hraw. destruct Hraw as [Hraw _].
  apply toWikiPage_entry in Hrp.
  destruct Hrp as ((Htitle & _ & rawTags & Htags & Hptags) & Hlow & _).
  exists raw, (WikiPage.title p), rawTags.
  split; [assumption|]. split; [assumption|]. split; [assumption|].
  split; [reflexivity|]. intros q. rewrite matches_spec, Hlow, Hptags. split.
  - intros [H | [tag [Ht H]]]; [now left | right].
    apply in_map_iff in Ht. destruct Ht as [u [<- Hu]].
    exists u. split; [assumption|]. now rewrite toLowerCase_idem in H.
  - intros [H | [u [Hu H]]]; [now left | right].
    exists (toLowerCase u). split; [now apply in_map|].
    now rewrite toLowerCase_idem.
Qed.

Lemma loaded_page_matches_witness :
  exists (raw : jsval) (rawTitle : string) (rawTags : list string),
    In raw (listing (AxiosResolved sampleResponse)) /\
    getProp raw "title" = Normal (Str rawTitle) /\
    getProp raw "tags" = Normal (Arr (map Str rawTags)) /\
    WikiPage.title setupPage = rawTitle /\
    forall q : string,
      matches q setupPage = true <->
      substring (toLowerCase q) (toLowerCase rawTitle) \/
      exists tag : string,
        In tag rawTags /\ substring (toLowerCase q) (toLowerCase tag).
Proof.
  apply (loaded_page_matches (AxiosResolved sampleResponse) [setupPage] setupPage).
  - reflexivity.
  - left; reflexivity.
Defined.

(** X14.  A failed load degrades to "no results".  With the index a load
    returns after logging an error, an authorized autocomplete request of 3
    code units or more is answered with exactly the [no_results] sentinel,
    and an authorized [wiki] command with a value that is no sentinel with
    the [Unknown Page] reply. *)
Theorem failed_load_degrades
    (o : AxiosOutcome) (index : list WikiPage.t)
    (env : Env.t) (i : Interaction.t) :
  outcome (fetchWikiPages o) = Normal index ->
  trace (fetchWikiPages o) <> [] ->
  unauthorized env i = false ->
  (forall focusedValue : string,
     Interaction.what i = Interaction.Autocomplete focusedValue ->
     3 <= String.length focusedValue ->
     trace (interactionCreate env index i) = [Respond [no_results]]) /\
  (forall v baseUrl : string,
     Interaction.what i = Interaction.ChatInputCommand "wiki" v ->
     v <> "start_typing" -> v <> "no_results" ->
     Env.WIKI_BASE_URL env = Some baseUrl ->
     trace (interactionCreate env index i) =
       [Reply (pageReply baseUrl "Unknown Page" v) false]).
Proof.
  intros Hload Hlog Hauth.
  destruct (fetchWikiPages_cases o) as [[idx [_ Hf]] | [e [_ Hf]]];
    rewrite Hf in Hload, Hlog; [now destruct Hlog|].
  injection Hload as <-. split.
  - intros fv Hwhat Hlen. unfold interactionCreate. rewrite Hauth, Hwhat.
    rewrite (search_ge3 [] fv Hlen). simpl.
    unfold respond. now destruct (Interaction.platformOk i).
  - intros v baseUrl Hwhat Hv1 Hv2 Hbase.
    rewrite (interactionCreate_command env [] i "wiki" v Hauth Hwhat).
    rewrite (commandBranch_page env [] i v Hv1 Hv2), Hbase.
    apply trace_reply.
Qed.

Lemma failed_load_degrades_witness :
  trace (interactionCreate sampleEnv []
           (Interaction.mk (Some sampleGuild) (Interaction.Autocomplete "setup") true)) =
    [Respond [no_results]].
Proof.
  destruct (failed_load_degrades AxiosRejected [] sampleEnv
              (Interaction.mk (Some sampleGuild) (Interaction.Autocomplete "setup") true))
    as [H _].
  - reflexivity.
  - discriminate.
  - reflexivity.
  - apply (H "setup"); [reflexivity | simpl; lia].
Defined.

(* ================================================================= *)
(** ** Deployment and the guild handlers *)

Section LifecycleFacts.
Variable env : Env.t.
Variable CLIENT_ID : option string.
Variable platform : Platform.t.

Lemma registrations_app (t1 t2 : list call) :
  registrations (t1 ++ t2) = registrations t1 ++ registrations t2.
Proof.
  induction t1 as [|[] t1 IH]; simpl; congruence.
Qed.

Lemma departures_app (t1 t2 : list call) :
  departures (t1 ++ t2) = departures t1 ++ departures t2.
Proof.
  induction t1 as [|[] t1 IH]; simpl; congruence.
Qed.

Lemma deployCommands_spec (guildId : string) :
  exists tr : list call,
    deployCommands CLIENT_ID platform guildId = (tr, Normal tt) /\
    registrations tr = [guildId] /\ departures tr = [].
Proof.
  unfold deployCommands, gtry, gbind, gcall.
  destruct (Platform.putOk platform guildId); eexists; repeat split.
Qed.

Lemma guildCreate_spec (guild : Guild.t) :
  exists tr : list call,
    guildCreate env CLIENT_ID platform guild = (tr, Normal tt) /\
    registrations tr =
      (if isAllowed (Guild.id guild) (ALLOWED_GUILDS env)
       then [Guild.id guild] else []) /\
    departures tr =
      (if isAllowed (Guild.id guild) (ALLOWED_GUILDS env) then [] else [guild]).
Proof.
  unfold guildCreate.
  destruct (isAllowed (Guild.id guild) (ALLOWED_GUILDS env)); simpl.
  - destruct (deployCommands_spec (Guild.id guild)) as [tr (-> & Hr & Hd)].
    eexists. split; [reflexivity|]. simpl. now split.
  - unfold gtry, gbind, gcall.
    destruct (Platform.leaveOk platform (Guild.id guild)); eexists; repeat split.
Qed.

Lemma readyGuild_spec (entry : string * Guild.t) :
  exists tr : list call,
    readyGuild env CLIENT_ID platform entry = (tr, Normal tt) /\
    registrations tr =
      (if isAllowed (fst entry) (ALLOWED_GUILDS env) then [fst entry] else []) /\
    departures tr =
      (if isAllowed (fst entry) (ALLOWED_GUILDS env) then [] else [snd entry]).
Proof.
  destruct entry as [guildId guild]. unfold readyGuild. simpl.
  destruct (isAllowed guildId (ALLOWED_GUILDS env)).
  - apply deployCommands_spec.
  - unfold gtry, gbind, gcall.
    destruct (Platform.leaveOk platform (Guild.id guild)); eexists; repeat split.
Qed.

Lemma forOf_readyGuild (guilds : list (string * Guild.t)) :
  exists tr : list call,
    forOf (readyGuild env CLIENT_ID platform) guilds = (tr, Normal tt) /\
    registrations tr =
      map fst (filter (fun entry => isAllowed (fst entry) (ALLOWED_GUILDS env))
                      guilds) /\
    departures tr =
      map snd (filter (fun entry =>
                         negb (isAllowed (fst entry) (ALLOWED_GUILDS env)))
                      guilds).
Proof.
  induction guilds as [|entry guilds IH]; simpl.
  - exists []. repeat split.
  - destruct (readyGuild_spec entry) as [t1 (-> & Hr1 & Hd1)].
    destruct IH as [t2 (-> & Hr2 & Hd2)].
    exists (t1 ++ t2). split; [reflexivity|].
    rewrite registrations_app, departures_app, Hr1, Hd1, Hr2, Hd2.
    destruct (isAllowed (fst entry) (ALLOWED_GUILDS env)); simpl; now split.
Qed.
End LifecycleFacts.

(** X15.  [guildCreate] admits or leaves, and never throws.  Whatever the
    platform answers, the handler completes normally; for a guild on the
    allowlist it registers the commands for that guild once and does not
    leave, and for any other guild it leaves once and registers nothing. *)
Theorem guildCreate_admission
    (env : Env.t) (CLIENT_ID : option string) (platform : Platform.t)
    (guild : Guild.t) :
  result (guildCreate env CLIENT_ID platform guild) = Normal tt /\
  (isAllowed (Guild.id guild) (ALLOWED_GUILDS env) = true ->
   registrations (calls (guildCreate env CLIENT_ID platform guild)) =
     [Guild.id guild] /\
   departures (calls (guildCreate env CLIENT_ID platform guild)) = []) /\
  (isAllowed (Guild.id guild) (ALLOWED_GUILDS env) = false ->
   registrations (calls (guildCreate env CLIENT_ID platform guild)) = [] /\
   departures (calls (guildCreate env CLIENT_ID platform guild)) = [guild]).
Proof.
  destruct (guildCreate_spec env CLIENT_ID platform guild) as [tr (-> & Hr & Hd)].
  unfold calls, result; simpl. rewrite Hr, Hd.
  split; [reflexivity|]. split; intros ->; now split.
Qed.

(** X16.  [ready] sorts the cached guilds, and never throws.  Whatever the
    platform answers (a failed registration or a failed leave stops
    nothing), the handler completes normally, registers the commands for
    exactly the guilds of the cache that are on the allowlist, in cache
    order, and leaves exactly the others. *)
Theorem ready_admission
    (env : Env.t) (CLIENT_ID : option string) (platform : Platform.t)
    (userTag : string) (guilds : list (string * Guild.t)) :
  result (ready env CLIENT_ID platform userTag guilds) = Normal tt /\
  registrations (calls (ready env CLIENT_ID platform userTag guilds)) =
    map fst (filter (fun entry => isAllowed (fst entry) (ALLOWED_GUILDS env))
                    guilds) /\
  departures (calls (ready env CLIENT_ID platform userTag guilds)) =
    map snd (filter (fun entry =>
                       negb (isAllowed (fst entry) (ALLOWED_GUILDS env)))
                    guilds).
Proof.
  unfold ready.
  destruct (forOf_readyGuild env CLIENT_ID platform guilds) as [tr (E & Hr & Hd)].
  unfold gbind, gcall. rewrite E. unfold calls, result; simpl.
  now rewrite Hr, Hd.
Qed.

(** X17.  The guild handlers and the interaction handler agree on who is
    admitted: [guildCreate] registers the commands for a guild exactly when
    an interaction from that guild is authorized, and leaves it exactly
    when such an interaction is unauthorized. *)
Theorem admission_consistent
    (env : Env.t) (CLIENT_ID : option string) (platform : Platform.t)
    (guild : Guild.t) (what : Interaction.kind) (ok : bool) :
  (registrations (calls (guildCreate env CLIENT_ID platform guild)) =
     [Guild.id guild] <->
   unauthorized env (Interaction.mk (Some guild) what ok) = false) /\
  (departures (calls (guildCreate env CLIENT_ID platform guild)) = [guild] <->
   unauthorized env (Interaction.mk (Some guild) what ok) = true).
Proof.
  destruct (guildCreate_spec env CLIENT_ID platform guild) as [tr (-> & Hr & Hd)].
  unfold calls, unauthorized; simpl. rewrite Hr, Hd.
  destruct (isAllowed (Guild.id guild) (ALLOWED_GUILDS env)); simpl;
    repeat split; intros; try reflexivity; discriminate.
Qed.

(** The handlers on the sample cache, with every platform call failing. *)
Lemma ready_sample :
  registrations (calls (ready sampleEnv (Some "42") platformAllFail "bot#1" sampleCache)) =
    ["100"; "200"] /\
  departures (calls (ready sampleEnv (Some "42") platformAllFail "bot#1" sampleCache)) =
    [strangerGuild] /\
  guildCreate sampleEnv (Some "42") platformAllOk strangerGuild =
    ([Log "Attempting to join: Elsewhere (999)";
      Log "Elsewhere (999) is not on the allowlist. Leaving...";
      Leave strangerGuild;
      Log "Left non-allowlisted guild: Elsewhere (999)"], Normal tt).
Proof.
  repeat split; reflexivity.
Qed.

